(** * submit_SGE: throttled job submission to the Sun Grid Engine

    A shallow embedding of [src/submit_SGE/submit_SGE.py] (class [SubmitSGE])
    and the properties of its queue inspection, admission loop, batch
    submission and drain loop.

    The Python code talks to the outside through [getpass.getuser],
    [os.environ], [os.popen], [open]/[write]/[close], [subprocess.call],
    [time.sleep], [os.remove] and [print].  The embedding keeps every one of
    these calls, in the order of the source, as an operation of a small
    state-and-exception monad: the answers of the outside are read from a
    [world], the calls made are recorded in a [trace].

    - Integers are Python's unbounded ones: [Z].
    - [os.environ] is a finite map from strings.  [files] is what the
      program itself has written and not removed, by the path text it used;
      what else is on disk, and what the outside does to these files, is
      not part of the state.  Two texts that name one file are kept apart;
      [submit_job] reads back, through [qsub], only the entry it has just
      opened and written under the same text.
    - Exceptions: the statements of [submit_job] that fail on their operands
      ([str + None], [None.split]); [time.sleep], which refuses a negative
      duration and one beyond what the platform can wait; [open],
      [subprocess.call] and [os.remove], which fail when the world says so.
      Writing to the script once it is open, [os.popen] and
      [getpass.getuser] are taken to succeed.
    - The two [while] loops may run for ever; each takes [fuel], the number
      of iterations it is allowed, and a run that uses it up ends in
      [OutOfFuel] with the state reached so far. *)

From Stdlib Require Import ZArith QArith Ascii String List Lia.
From stdpp Require Import base gmap strings list.

Local Open Scope string_scope.
Local Open Scope Z_scope.

(** ** Python strings *)

(** The line feed written [\n] in the Python literals. *)
Definition LF : string := String (ascii_of_nat 10) EmptyString.

(** The double quote character of the [echo] lines. *)
Definition DQ : string := String (ascii_of_nat 34) EmptyString.

(** [s is not ""]: CPython keeps one shared empty string object, so the
    identity test of the source decides emptiness. *)
Definition is_not_empty (s : string) : bool :=
  match s with
  | EmptyString => false
  | String _ _ => true
  end.

(** [s.startswith(sub)], the test [str.find] makes at each position. *)
Fixpoint startswith (sub s : string) : bool :=
  match sub, s with
  | EmptyString, _ => true
  | String _ _, EmptyString => false
  | String a sub', String b s' => if Ascii.eqb a b then startswith sub' s' else false
  end.

(** [s.find(sub)] scanning from position [i]: the lowest index at which [sub]
    occurs, or [-1]. *)
Fixpoint find_from (i : Z) (sub s : string) : Z :=
  if startswith sub s then i
  else match s with
       | EmptyString => -1
       | String _ s' => find_from (i + 1) sub s'
       end.

Definition find (s sub : string) : Z := find_from 0 sub s.

(** [s.split(sep)] for a one-character separator. *)
Fixpoint split (sep : ascii) (s : string) : list string :=
  match s with
  | EmptyString => [EmptyString]
  | String a s' =>
      if Ascii.eqb a sep then EmptyString :: split sep s'
      else match split sep s' with
           | [] => [String a EmptyString]
           | p :: ps => String a p :: ps
           end
  end.

(** ** Values, exceptions, events *)

(** Arguments of [print]. *)
Inductive pyval :=
| PInt (z : Z)
| PStr (s : string).

Inductive exn :=
| TypeError        (* str + None *)
| AttributeError   (* None.split *)
| IndexError       (* [][-1] *)
| OSError          (* os.remove, open: OSError and its subclasses *)
| ValueError       (* time.sleep of a negative duration *)
| OverflowError.   (* time.sleep of a duration too large *)

(** Durations handed to [time.sleep]; the code only passes them on. *)
Definition seconds := Q.

(** What the program does to the outside, in the order it does it.  A
    [subprocess.call] that starts its program is recorded with what the
    calling program has written to its files by then; the exit status is
    not recorded, the code discards it. *)
Inductive event :=
| EPopen (cmd : string)
| EPrint (args : list pyval)
| ECall (argv : list string) (fs : gmap string string)
| ESleep (t : seconds)
| ERemove (path : string).

(** The outside: the user name, the environment, the output lines of the
    [n]-th [os.popen] call, whether the [n]-th [os.remove] succeeds, the
    exception the [n]-th [open] and the [n]-th [subprocess.call] end with, if
    any, and the longest duration [time.sleep] accepts. *)
Record world := World {
  w_user : string;
  w_environ : gmap string string;
  w_popen : nat -> string -> list string;
  w_remove_ok : nat -> string -> bool;
  w_open : nat -> string -> option exn;
  w_call : nat -> list string -> option exn;
  w_sleep_max : seconds;
}.

(** How many times [os.popen], [open], [subprocess.call] and [os.remove]
    were called, what the program has written, and what it did. *)
Record state := State {
  popens : nat;
  opens : nat;
  calls : nat;
  removes : nat;
  files : gmap string string;
  trace : list event;
}.

Definition initial : state := State 0 0 0 0 ∅ [].

(** ** The monad: state, exceptions, and fuel for the [while] loops *)

Inductive outcome (A : Type) :=
| Ret (a : A)
| Raise (e : exn)
| OutOfFuel.
Arguments Ret {A} a.
Arguments Raise {A} e.
Arguments OutOfFuel {A}.

Definition M (A : Type) : Type := state -> outcome A * state.

Definition ret {A} (a : A) : M A := fun s => (Ret a, s).

Definition raise {A} (e : exn) : M A := fun s => (Raise e, s).

Definition out_of_fuel {A} : M A := fun s => (OutOfFuel, s).

Definition bind {A B} (m : M A) (k : A -> M B) : M B :=
  fun s =>
    match m s with
    | (Ret a, s') => k a s'
    | (Raise e, s') => (Raise e, s')
    | (OutOfFuel, s') => (OutOfFuel, s')
    end.

Notation "x <- m ;; k" := (bind m (fun x => k))
  (at level 20, m at level 99, k at level 200, only parsing).
Notation "m ;; k" := (bind m (fun _ => k))
  (at level 100, k at level 200, only parsing, right associativity).

Definition emit (e : event) : M unit :=
  fun s => (Ret tt, State (popens s) (opens s) (calls s) (removes s) (files s)
                          (trace s ++ [e])).

(** ** The class [SubmitSGE] *)

Record SubmitSGE := {
  queue_name : string;
  extra_options : string;
  maximum_jobs : Z;
  queue_update : seconds;
  verbose : bool;
}.

(** The defaults of [__init__]. *)
Definition default_SubmitSGE : SubmitSGE :=
  {| queue_name := EmptyString; extra_options := EmptyString;
     maximum_jobs := 100; queue_update := 60%Q; verbose := true |}.

Section Methods.
Context (w : world) (self : SubmitSGE).

(** *** Primitive operations *)

Definition getuser : M string := ret (w_user w).

Definition environ_get (k : string) : M (option string) :=
  ret (w_environ w !! k).

(** [os.popen(cmd).readlines()] *)
Definition popen_readlines (cmd : string) : M (list string) :=
  fun s => (Ret (w_popen w (popens s) cmd),
            State (S (popens s)) (opens s) (calls s) (removes s) (files s)
                  (trace s ++ [EPopen cmd])).

Definition print (args : list pyval) : M unit := emit (EPrint args).

(** [time.sleep(t)]: [ValueError] for a negative duration, [OverflowError]
    for one the platform cannot wait. *)
Definition sleep (t : seconds) : M unit :=
  if Qle_bool 0 t
  then if Qle_bool t (w_sleep_max w)
       then emit (ESleep t)
       else raise OverflowError
  else raise ValueError.

(** [lit + v] where [v] may be [None]. *)
Definition str_add (lit : string) (v : option string) : M string :=
  match v with
  | Some x => ret (lit +:+ x)
  | None => raise TypeError
  end.

(** [open(filename, 'w')] creates or truncates the file, or fails (the
    directory of the path is missing, the path cannot be written, ...). *)
Definition open_w (filename : string) : M unit :=
  fun s =>
    match w_open w (opens s) filename with
    | Some e => (Raise e, State (popens s) (S (opens s)) (calls s) (removes s)
                                (files s) (trace s))
    | None => (Ret tt, State (popens s) (S (opens s)) (calls s) (removes s)
                             (<[filename := EmptyString]> (files s)) (trace s))
    end.

(** [f.write(text)] appends to the file. *)
Definition write (filename text : string) : M unit :=
  fun s => (Ret tt, State (popens s) (opens s) (calls s) (removes s)
                          (<[filename := default EmptyString (files s !! filename) +:+ text]>
                             (files s))
                          (trace s)).

(** [subprocess.call(argv)]: the program is started, or the call fails; the
    exit status is discarded by the caller. *)
Definition call (argv : list string) : M unit :=
  fun s =>
    match w_call w (calls s) argv with
    | Some e => (Raise e, State (popens s) (opens s) (S (calls s)) (removes s)
                                (files s) (trace s))
    | None => (Ret tt, State (popens s) (opens s) (S (calls s)) (removes s) (files s)
                             (trace s ++ [ECall argv (files s)]))
    end.

(** [os.remove(path)]: the file is removed, or the call fails with an
    [OSError] (the file is already gone, it may not be removed, ...).  A
    failed call leaves [files], the record of what the program wrote, as it
    is: whether the file is still on disk the model does not say. *)
Definition remove (path : string) : M unit :=
  fun s =>
    if w_remove_ok w (removes s) path
    then (Ret tt, State (popens s) (opens s) (calls s) (S (removes s))
                        (delete path (files s)) (trace s ++ [ERemove path]))
    else (Raise OSError, State (popens s) (opens s) (calls s) (S (removes s))
                               (files s) (trace s)).

(** *** get_jobs_in_queue *)

(** The [qstat] command line built at lines 48-50. *)
Definition qstat_command : string :=
  let stat := "qstat -u " +:+ w_user w in
  if is_not_empty (queue_name self)
  then stat +:+ "-q " +:+ queue_name self
  else stat.

(** Lines 55-60: the count taken from the lines read. *)
Definition job_number_of (lines : list string) : Z :=
  let job_number := Z.of_nat (length lines) in
  if 0 <? job_number then job_number - 2 else job_number.

Definition get_jobs_in_queue : M Z :=
  username <- getuser ;;
  let stat := "qstat -u " +:+ username in
  let stat := if is_not_empty (queue_name self)
              then stat +:+ "-q " +:+ queue_name self
              else stat in
  lines <- popen_readlines stat ;;
  ret (job_number_of lines).

(** *** get_jobs_in_queue_name *)

Definition qstat_xml_command : string :=
  let stat := "qstat -u " +:+ w_user w +:+ " -xml " in
  if is_not_empty (queue_name self)
  then stat +:+ "-q " +:+ queue_name self
  else stat.

(** Lines 83-86: one more for every line in which the fragment is found. *)
Fixpoint count_fragment (name_fragment : string) (lines : list string) (job_number : Z) : Z :=
  match lines with
  | [] => job_number
  | i :: rest =>
      count_fragment name_fragment rest
        (if -1 <? find i name_fragment then job_number + 1 else job_number)
  end.

Definition get_jobs_in_queue_name (name_fragment : string) : M Z :=
  username <- getuser ;;
  let stat := "qstat -u " +:+ username +:+ " -xml " in
  let stat := if is_not_empty (queue_name self)
              then stat +:+ "-q " +:+ queue_name self
              else stat in
  lines <- popen_readlines stat ;;
  let job_number := count_fragment name_fragment lines 0 in
  (if verbose self
   then print [PInt job_number; PStr "Jobs containing string";
               PStr name_fragment; PStr "in queue"]
   else ret tt) ;;
  ret job_number.

(** *** submit_job *)

(** [conda_environment.split("/")[-1]] *)
Definition last_component (v : option string) : M string :=
  match v with
  | None => raise AttributeError
  | Some x =>
      match last (split "/"%char x) with
      | Some name => ret name
      | None => raise IndexError
      end
  end.

(** [conda_environment is not ""], also true of [None]. *)
Definition opt_is_not_empty (v : option string) : bool :=
  match v with
  | None => true
  | Some x => is_not_empty x
  end.

Definition rule : string := "echo -------------------------------------" +:+ LF.

Definition submit_job (command job_name : string) : M unit :=
  let filename := "./submit_" +:+ job_name +:+ ".sh" in
  libpath <- environ_get "LD_LIBRARY_PATH" ;;
  path <- environ_get "PATH" ;;
  pypath <- environ_get "PYTHONPATH" ;;
  conda_environment <- environ_get "CONDA_PREFIX" ;;
  open_w filename ;;
  write filename ("#/bin/sh " +:+ LF +:+ " " +:+ LF) ;;
  l1 <- str_add "export LD_LIBRARY_PATH=" libpath ;;
  write filename (l1 +:+ " " +:+ LF) ;;
  l2 <- str_add "export PATH=" path ;;
  write filename (l2 +:+ " " +:+ LF) ;;
  l3 <- str_add "export PYTHONPATH=" pypath ;;
  write filename (l3 +:+ " " +:+ LF) ;;
  (if opt_is_not_empty conda_environment
   then environment_name <- last_component conda_environment ;;
        write filename ("source activate" +:+ environment_name +:+ " " +:+ LF)
   else ret tt) ;;
  write filename rule ;;
  write filename ("echo " +:+ DQ +:+ "USER    : $USER" +:+ DQ +:+ " " +:+ LF) ;;
  write filename ("echo " +:+ DQ +:+ "JOB_ID  : $JOB_ID" +:+ DQ +:+ " " +:+ LF) ;;
  write filename ("echo " +:+ DQ +:+ "JOB_NAME: $JOB_NAME" +:+ DQ +:+ " " +:+ LF) ;;
  write filename ("echo " +:+ DQ +:+ "HOSTNAME: $HOSTNAME" +:+ DQ +:+ " " +:+ LF) ;;
  write filename rule ;;
  write filename ("ulimit -c 1" +:+ LF) ;;
  write filename command ;;
  (* f.close() *)
  let call_command :=
    ["qsub"; extra_options self; "-notify"; "-N"; job_name; filename] in
  call call_command ;;
  sleep 1%Q ;;
  remove filename.

(** *** submit_job_when_ready *)

(** The [while True] loop of lines 159-168; [fuel] bounds its iterations. *)
Fixpoint admission_loop (fuel : nat) (command job_name : string) : M unit :=
  match fuel with
  | O => out_of_fuel
  | S fuel' =>
      job_number <- get_jobs_in_queue ;;
      if job_number <? maximum_jobs self
      then (if verbose self
            then print [PStr "Submitting Job"; PStr job_name]
            else ret tt) ;;
           submit_job command job_name
           (* break *)
      else sleep (queue_update self) ;;
           admission_loop fuel' command job_name
  end.

Definition submit_job_when_ready (fuel : nat) (command job_name : string) : M unit :=
  job_number <- get_jobs_in_queue ;;
  (if verbose self
   then print [PInt job_number; PStr "out of"; PInt (maximum_jobs self);
               PStr "allowed jobs currently submitted"]
   else ret tt) ;;
  admission_loop fuel command job_name.

(** *** submit_job_list *)

(** The [for] loop of lines 182-183. *)
Fixpoint submit_each (fuel : nat) (command_list : list string) (job_name : string)
  : M unit :=
  match command_list with
  | [] => ret tt
  | command :: rest =>
      submit_job_when_ready fuel command job_name ;;
      submit_each fuel rest job_name
  end.

(** The [while] loop of lines 186-187; [fuel] bounds the evaluations of its
    condition. *)
Fixpoint drain_loop (fuel : nat) (job_name : string) : M unit :=
  match fuel with
  | O => out_of_fuel
  | S fuel' =>
      n <- get_jobs_in_queue_name job_name ;;
      if 0 <? n
      then sleep (queue_update self) ;;
           drain_loop fuel' job_name
      else ret tt
  end.

Definition submit_job_list (fuel : nat) (command_list : list string)
    (job_name : string) (wait_for_completion : bool) : M unit :=
  submit_each fuel command_list job_name ;;
  if wait_for_completion
  then drain_loop fuel job_name
  else ret tt.

End Methods.

(** ** Reading a trace *)

(** The command lines handed to [os.popen], oldest first. *)
Definition popen_cmds (tr : list event) : list string :=
  omap (fun e => match e with EPopen c => Some c | _ => None end) tr.

(** The durations slept, oldest first. *)
Definition sleeps (tr : list event) : list seconds :=
  omap (fun e => match e with ESleep t => Some t | _ => None end) tr.

(** What was printed, oldest first. *)
Definition printed (tr : list event) : list (list pyval) :=
  omap (fun e => match e with EPrint a => Some a | _ => None end) tr.

(** A [qsub] call hands a job to the scheduler: its name is the operand of
    [-N], its script is what the program has written to the file named last
    by the time [qsub] is started.  Whether the scheduler takes the job is
    not observed. *)
Definition submission_of (e : event) : option (string * option string) :=
  match e with
  | ECall [prog; _; _; _; job_name; filename] fs =>
      if String.eqb prog "qsub" then Some (job_name, fs !! filename) else None
  | _ => None
  end.

Definition submissions (tr : list event) : list (string * option string) :=
  omap submission_of tr.

(** ** Notions the statements use *)

(** [sub] occurs in [s]: the substring relation. *)
Definition contains (sub s : string) : Prop :=
  exists pre post, s = pre +:+ sub +:+ post.

(** The test of line 85. *)
Definition found (name_fragment line : string) : bool :=
  -1 <? find line name_fragment.

(** The count [get_jobs_in_queue] returns at its [j]-th call from state [s]. *)
Definition total_at (w : world) (self : SubmitSGE) (s : state) (j : nat) : Z :=
  job_number_of (w_popen w (popens s + j) (qstat_command w self)).

(** The count [get_jobs_in_queue_name] returns at its [j]-th call from [s]. *)
Definition matching_at (w : world) (self : SubmitSGE) (job_name : string)
    (s : state) (j : nat) : Z :=
  count_fragment job_name (w_popen w (popens s + j) (qstat_xml_command w self)) 0.

(** The text [submit_job] writes before the command, when the environment
    lets it get that far. *)
Definition script_header (w : world) : option string :=
  libpath ← w_environ w !! "LD_LIBRARY_PATH";
  path ← w_environ w !! "PATH";
  pypath ← w_environ w !! "PYTHONPATH";
  conda ← w_environ w !! "CONDA_PREFIX";
  activate ← (if is_not_empty conda
              then name ← last (split "/"%char conda);
                   Some ("source activate" +:+ name +:+ " " +:+ LF)
              else Some EmptyString);
  Some ("#/bin/sh " +:+ LF +:+ " " +:+ LF
        +:+ "export LD_LIBRARY_PATH=" +:+ libpath +:+ " " +:+ LF
        +:+ "export PATH=" +:+ path +:+ " " +:+ LF
        +:+ "export PYTHONPATH=" +:+ pypath +:+ " " +:+ LF
        +:+ activate
        +:+ rule
        +:+ "echo " +:+ DQ +:+ "USER    : $USER" +:+ DQ +:+ " " +:+ LF
        +:+ "echo " +:+ DQ +:+ "JOB_ID  : $JOB_ID" +:+ DQ +:+ " " +:+ LF
        +:+ "echo " +:+ DQ +:+ "JOB_NAME: $JOB_NAME" +:+ DQ +:+ " " +:+ LF
        +:+ "echo " +:+ DQ +:+ "HOSTNAME: $HOSTNAME" +:+ DQ +:+ " " +:+ LF
        +:+ rule
        +:+ "ulimit -c 1" +:+ LF).

(** The script of a command: the header, then the command verbatim. *)
Definition job_script (w : world) (command : string) : option string :=
  (fun h => h +:+ command) <$> script_header w.

Definition script_name (job_name : string) : string :=
  "./submit_" +:+ job_name +:+ ".sh".

(** The state after [n] more [os.popen] calls during which [evs] happened
    and no file was touched. *)
Definition advance (n : nat) (evs : list event) (s : state) : state :=
  State (popens s + n) (opens s) (calls s) (removes s) (files s) (trace s ++ evs).

(** [k] rounds of polling with [cmd] and sleeping [t]. *)
Definition waited (cmd : string) (t : seconds) (k : nat) : list event :=
  concat (replicate k [EPopen cmd; ESleep t]).

(** A trace without what was printed. *)
Definition unprinted (tr : list event) : list event :=
  List.filter (fun e => match e with EPrint _ => false | _ => true end) tr.

(** From [s] to [s'] the program did [evs], in this order, and otherwise
    only printed: its queries, sleeps, [qsub] calls and removals are those
    of [evs], it opened no file and wrote none. *)
Definition did (evs : list event) (s s' : state) : Prop :=
  popens s' = (popens s + length (popen_cmds evs))%nat
  /\ opens s' = opens s /\ calls s' = calls s /\ removes s' = removes s
  /\ files s' = files s
  /\ unprinted (trace s') = (unprinted (trace s) ++ evs)%list.

(** [time.sleep] accepts the duration [t]. *)
Definition sleepable (w : world) (t : seconds) : bool :=
  Qle_bool 0 t && Qle_bool t (w_sleep_max w).

(** The exception of [time.sleep] for a duration it does not accept. *)
Definition sleep_exn (t : seconds) : exn :=
  if Qle_bool 0 t then OverflowError else ValueError.

(** The [qsub] call of [submit_job], started when the files are [fs]. *)
Definition qsub_call (self : SubmitSGE) (job_name : string) (fs : gmap string string)
  : event :=
  ECall ["qsub"; extra_options self; "-notify"; "-N"; job_name; script_name job_name] fs.

(** What is left of [submit_job] once the script is written: the [qsub]
    call, the second of sleep, the removal (lines 136-141). *)
Definition submit_tail (w : world) (self : SubmitSGE) (job_name : string) : M unit :=
  bind (call w ["qsub"; extra_options self; "-notify"; "-N"; job_name;
                script_name job_name])
       (fun _ => bind (sleep w 1%Q) (fun _ => remove w (script_name job_name))).

(** What [print] leaves in the trace when [verbose] is set. *)
Definition if_verbose (self : SubmitSGE) (args : list pyval) : list event :=
  if verbose self then [EPrint args] else [].

(** The state in which [submit_job] is entered by the admission loop started
    in [s], after [k] refusals. *)
Definition admitted (w : world) (self : SubmitSGE) (job_name : string) (k : nat)
    (s : state) : state :=
  advance (k + 1)
    (waited (qstat_command w self) (queue_update self) k
       ++ EPopen (qstat_command w self)
       :: if_verbose self [PStr "Submitting Job"; PStr job_name]) s.

(** The state after the poll [submit_job_when_ready] makes before its loop,
    the one it prints. *)
Definition first_poll (w : world) (self : SubmitSGE) (s : state) : state :=
  advance 1
    (EPopen (qstat_command w self)
       :: if_verbose self [PInt (total_at w self s 0); PStr "out of";
                           PInt (maximum_jobs self);
                           PStr "allowed jobs currently submitted"]) s.

(** ** Worlds to run the code in *)

(** An environment in which the four variables [submit_job] reads are set. *)
Definition environ_example : gmap string string :=
  <["LD_LIBRARY_PATH" := "/usr/lib"]>
    (<["PATH" := "/usr/bin"]>
       (<["PYTHONPATH" := "/home/alice/python"]>
          (<["CONDA_PREFIX" := "/opt/conda/envs/sci"]> ∅))).

(** The world of user alice in which the successive [os.popen] calls print
    [listings], nothing once these are used up, every [os.remove] succeeds or
    every one fails, every file can be opened and [qsub] started, and
    [time.sleep] accepts what fits a signed 64-bit count of nanoseconds. *)
Definition world_of (listings : list (list string)) (remove_ok : bool) : world :=
  World "alice" environ_example (fun n _ => nth n listings []) (fun _ _ => remove_ok)
        (fun _ _ => None) (fun _ _ => None) 9223372036%Q.

(** [n] output lines of a plain [qstat]. *)
Definition rows (n : nat) : list string := replicate n ("row" +:+ LF).

(** [self] with another ceiling. *)
Definition with_maximum_jobs (n : Z) (self : SubmitSGE) : SubmitSGE :=
  {| queue_name := queue_name self; extra_options := extra_options self;
     maximum_jobs := n; queue_update := queue_update self; verbose := verbose self |}.

(** [self] with another queue. *)
Definition with_queue_name (q : string) (self : SubmitSGE) : SubmitSGE :=
  {| queue_name := q; extra_options := extra_options self;
     maximum_jobs := maximum_jobs self; queue_update := queue_update self;
     verbose := verbose self |}.

(** The lines [qstat -xml] prints for one job: its number and its name. *)
Definition xml_job (job : string * string) : list string :=
  [ "    <job_list state=" +:+ DQ +:+ "running" +:+ DQ +:+ ">" +:+ LF;
    "      <JB_job_number>" +:+ fst job +:+ "</JB_job_number>" +:+ LF;
    "      <JB_name>" +:+ snd job +:+ "</JB_name>" +:+ LF;
    "      <JB_owner>alice</JB_owner>" +:+ LF;
    "      <state>r</state>" +:+ LF;
    "    </job_list>" +:+ LF ].

(** The listing [qstat -xml] prints for the running jobs [jobs]. *)
Definition xml_listing (jobs : list (string * string)) : list string :=
  [ "<?xml version='1.0'?>" +:+ LF;
    "<job_info>" +:+ LF;
    "  <queue_info>" +:+ LF ]
  ++ concat (map xml_job jobs)
  ++ [ "  </queue_info>" +:+ LF;
       "  <job_info>" +:+ LF;
       "  </job_info>" +:+ LF;
       "</job_info>" +:+ LF ].

(** ** Notions of the further properties *)

(** The text of the directories [dirs] of a path, each followed by its
    slash. *)
Definition dirs_text (dirs : list string) : string :=
  foldr (fun d rest => d +:+ "/" +:+ rest) EmptyString dirs.

(** [s] holds no white space. *)
Fixpoint no_blank (s : string) : bool :=
  match s with
  | EmptyString => true
  | String a s' => negb (Ascii.is_space a) && no_blank s'
  end.

(** [self] with another verbosity. *)
Definition with_verbose (b : bool) (self : SubmitSGE) : SubmitSGE :=
  {| queue_name := queue_name self; extra_options := extra_options self;
     maximum_jobs := maximum_jobs self; queue_update := queue_update self;
     verbose := b |}.

(** Two states that differ at most in what was printed. *)
Definition same_but_prints (s s' : state) : Prop :=
  popens s = popens s' /\ opens s = opens s' /\ calls s = calls s'
  /\ removes s = removes s' /\ files s = files s'
  /\ unprinted (trace s) = unprinted (trace s').

(** Two runs with the same outcome, whose states differ at most in what was
    printed. *)
Definition agree {A} (r r' : outcome A * state) : Prop :=
  fst r = fst r' /\ same_but_prints (snd r) (snd r').

(** * Properties *)

(** ** Strings *)

Lemma append_cons (x : ascii) (a b : string) : String x a +:+ b = String x (a +:+ b).
Proof. reflexivity. Qed.

Lemma append_assoc (a b c : string) : (a +:+ b) +:+ c = a +:+ (b +:+ c).
Proof.
  induction a as [|x a IH]; [reflexivity |].
  rewrite !append_cons. now rewrite IH.
Qed.

Lemma startswith_spec (sub s : string) :
  startswith sub s = true <-> exists post, s = sub +:+ post.
Proof.
  revert s. induction sub as [|a sub IH]; intros s; simpl.
  - split; [intros _; now exists s | reflexivity].
  - destruct s as [|b s].
    + split; [discriminate | intros [post H]; discriminate].
    + destruct (Ascii.eqb a b) eqn:E.
      * apply Ascii.eqb_eq in E. subst b. rewrite IH. split.
        -- intros [post ->]. now exists post.
        -- intros [post H]. rewrite append_cons in H. injection H as ->. now exists post.
      * apply Ascii.eqb_neq in E. split; [discriminate |].
        intros [post H]. rewrite append_cons in H. injection H as <- _. congruence.
Qed.

Lemma contains_empty (sub : string) :
  contains sub EmptyString <-> sub = EmptyString.
Proof.
  split.
  - intros [pre [post H]]. destruct pre; [|discriminate].
    destruct sub; [reflexivity | discriminate].
  - intros ->. now exists EmptyString, EmptyString.
Qed.

Lemma contains_cons (sub : string) (a : ascii) (s : string) :
  contains sub (String a s) <-> startswith sub (String a s) = true \/ contains sub s.
Proof.
  rewrite startswith_spec. split.
  - intros [pre [post H]]. destruct pre as [|b pre].
    + left. now exists post.
    + right. rewrite append_cons in H. injection H as _ ->. now exists pre, post.
  - intros [[post H] | [pre [post H]]].
    + exists EmptyString, post. exact H.
    + exists (String a pre), post. rewrite append_cons. now rewrite H.
Qed.

Lemma find_from_range (i : Z) (sub s : string) :
  find_from i sub s = -1 \/ i <= find_from i sub s.
Proof.
  revert i. induction s as [|a s IH]; intros i; simpl.
  - destruct (startswith sub EmptyString); lia.
  - destruct (startswith sub (String a s)); [lia |].
    destruct (IH (i + 1)); lia.
Qed.

Lemma find_from_contains (i : Z) (sub s : string) :
  0 <= i -> (-1 < find_from i sub s <-> contains sub s).
Proof.
  revert i. induction s as [|a s IH]; intros i Hi.
  - rewrite contains_empty. simpl. destruct sub; simpl; split; try lia; try congruence.
  - rewrite contains_cons. simpl find_from.
    destruct (startswith sub (String a s)) eqn:E.
    + split; [now left | lia].
    + rewrite (IH (i + 1)) by lia. split; [now right | intros [?|?]; [discriminate | assumption]].
Qed.

Lemma found_contains (name_fragment line : string) :
  found name_fragment line = true <-> contains name_fragment line.
Proof.
  unfold found, find. rewrite Z.ltb_lt. now apply find_from_contains.
Qed.

(** ** Counting *)

Lemma job_number_of_length (lines : list string) :
  job_number_of lines =
    match lines with
    | [] => 0
    | _ :: _ => Z.of_nat (length lines) - 2
    end.
Proof. destruct lines; reflexivity || (unfold job_number_of; cbn -[Z.of_nat Z.sub]; 
  destruct (0 <? _) eqn:E; [reflexivity| apply Z.ltb_ge in E; simpl length in E; lia]). Qed.

Lemma count_fragment_acc (name_fragment : string) (lines : list string) (acc : Z) :
  count_fragment name_fragment lines acc =
    acc + Z.of_nat (length (List.filter (found name_fragment) lines)).
Proof.
  revert acc. induction lines as [|l lines IH]; intros acc; simpl.
  - lia.
  - rewrite IH. fold (found name_fragment l).
    destruct (found name_fragment l); simpl length; lia.
Qed.

(** ** Running the primitives *)

Section Runs.
Context (w : world) (self : SubmitSGE).

Lemma bind_Ret {A B} (m : M A) (k : A -> M B) (s s1 : state) (a : A) :
  m s = (Ret a, s1) -> bind m k s = k a s1.
Proof. intros H. unfold bind. now rewrite H. Qed.

Lemma bind_Raise {A B} (m : M A) (k : A -> M B) (s s1 : state) (e : exn) :
  m s = (Raise e, s1) -> bind m k s = (Raise e, s1).
Proof. intros H. unfold bind. now rewrite H. Qed.

Lemma write_insert (filename text c : string) p o k r (fs : gmap string string) tr :
  write filename text (State p o k r (<[filename := c]> fs) tr)
  = (Ret tt, State p o k r (<[filename := c +:+ text]> fs) tr).
Proof.
  unfold write. cbn [popens opens calls removes files trace].
  now rewrite lookup_insert_eq, insert_insert_eq.
Qed.

Lemma get_jobs_in_queue_run (s : state) :
  get_jobs_in_queue w self s
  = (Ret (total_at w self s 0),
     State (S (popens s)) (opens s) (calls s) (removes s) (files s)
           (trace s ++ [EPopen (qstat_command w self)])).
Proof.
  unfold total_at. rewrite Nat.add_0_r. reflexivity.
Qed.

Lemma get_jobs_in_queue_name_run (name_fragment : string) (s : state) :
  get_jobs_in_queue_name w self name_fragment s
  = (Ret (matching_at w self name_fragment s 0),
     State (S (popens s)) (opens s) (calls s) (removes s) (files s)
           (trace s ++ EPopen (qstat_xml_command w self)
              :: if_verbose self [PInt (matching_at w self name_fragment s 0);
                                  PStr "Jobs containing string";
                                  PStr name_fragment; PStr "in queue"])).
Proof.
  unfold matching_at. rewrite Nat.add_0_r.
  unfold get_jobs_in_queue_name, bind, getuser, ret, popen_readlines, print, emit.
  cbn [popens opens calls removes files trace]. fold (qstat_xml_command w self).
  unfold if_verbose. destruct (verbose self); cbn [popens opens calls removes files trace].
  - now rewrite <- app_assoc.
  - reflexivity.
Qed.

(** [time.sleep]: it sleeps, or it refuses the duration. *)
Lemma sleep_run (t : seconds) (s : state) :
  sleep w t s
  = if sleepable w t
    then (Ret tt, advance 0 [ESleep t] s)
    else (Raise (sleep_exn t), s).
Proof.
  unfold sleep, sleepable, sleep_exn, advance, emit, raise.
  destruct (Qle_bool 0 t); destruct (Qle_bool t (w_sleep_max w));
    cbn [andb]; try reflexivity.
  now rewrite Nat.add_0_r.
Qed.

Ltac write_steps :=
  repeat first [ erewrite bind_Ret by apply write_insert
               | match goal with
                 | |- context [bind (ret ?x) ?k ?s] =>
                     change (bind (ret x) k s) with (k x s); cbv beta
                 end ].

(** The script cannot be opened: [submit_job] ends there. *)
Lemma submit_job_not_opened (command job_name : string) (e : exn) (s : state) :
  w_open w (opens s) (script_name job_name) = Some e ->
  submit_job w self command job_name s
  = (Raise e, State (popens s) (S (opens s)) (calls s) (removes s) (files s) (trace s)).
Proof.
  intros Ho. unfold submit_job. fold (script_name job_name).
  unfold environ_get at 1 2 3 4. write_steps.
  erewrite bind_Raise; [reflexivity |]. unfold open_w. now rewrite Ho.
Qed.

(** With a complete environment and a script that can be opened,
    [submit_job] writes the header and the command and goes on to [qsub]. *)
Lemma submit_job_written (command job_name h : string) (s : state) :
  script_header w = Some h ->
  w_open w (opens s) (script_name job_name) = None ->
  submit_job w self command job_name s
  = submit_tail w self job_name
      (State (popens s) (S (opens s)) (calls s) (removes s)
             (<[script_name job_name := h +:+ command]> (files s)) (trace s)).
Proof.
  intros Hh Ho. unfold script_header in Hh.
  destruct (w_environ w !! "LD_LIBRARY_PATH") as [libpath|] eqn:E1; [|discriminate].
  destruct (w_environ w !! "PATH") as [path|] eqn:E2; [|discriminate].
  destruct (w_environ w !! "PYTHONPATH") as [pypath|] eqn:E3; [|discriminate].
  destruct (w_environ w !! "CONDA_PREFIX") as [conda|] eqn:E4; [|discriminate].
  cbn [mbind option_bind] in Hh.
  unfold submit_job. fold (script_name job_name).
  unfold environ_get at 1 2 3 4. rewrite E1, E2, E3, E4.
  write_steps.
  erewrite bind_Ret by (unfold open_w; rewrite Ho; reflexivity).
  cbn [str_add opt_is_not_empty]. write_steps.
  fold (submit_tail w self job_name).
  destruct (is_not_empty conda).
  - unfold last_component. destruct (last (split "/" conda)) as [name|]; [|discriminate].
    cbn [mbind option_bind] in Hh. injection Hh as <-.
    write_steps. fold (submit_tail w self job_name). rewrite !append_assoc. reflexivity.
  - cbn [mbind option_bind] in Hh. injection Hh as <-.
    write_steps. fold (submit_tail w self job_name). rewrite !append_assoc. reflexivity.
Qed.

(** The rest of [submit_job], case by case. *)
Lemma submit_tail_run (job_name : string) p o c r (fs : gmap string string) tr :
  submit_tail w self job_name (State p o c r fs tr)
  = match w_call w c ["qsub"; extra_options self; "-notify"; "-N"; job_name;
                      script_name job_name] with
    | Some e => (Raise e, State p o (S c) r fs tr)
    | None =>
        if sleepable w 1%Q
        then if w_remove_ok w r (script_name job_name)
             then (Ret tt, State p o (S c) (S r) (delete (script_name job_name) fs)
                             (tr ++ [qsub_call self job_name fs; ESleep 1%Q;
                                     ERemove (script_name job_name)]))
             else (Raise OSError, State p o (S c) (S r) fs
                                    (tr ++ [qsub_call self job_name fs; ESleep 1%Q]))
        else (Raise (sleep_exn 1%Q), State p o (S c) r fs
                                       (tr ++ [qsub_call self job_name fs]))
    end.
Proof.
  unfold submit_tail, bind, call. cbn [popens opens calls removes files trace].
  destruct (w_call w c _) as [e|]; [reflexivity |].
  rewrite sleep_run. destruct (sleepable w 1%Q); [| reflexivity].
  unfold advance, remove. cbn [popens opens calls removes files trace].
  destruct (w_remove_ok w r (script_name job_name)); unfold qsub_call;
    rewrite <- !app_assoc; cbn [app]; now rewrite Nat.add_0_r.
Qed.

End Runs.

(** ** The environment name *)

Lemma not_contains_cons (c a : ascii) (s : string) :
  a <> c -> ~ contains (String c EmptyString) s ->
  ~ contains (String c EmptyString) (String a s).
Proof.
  intros Hne Hs H. apply contains_cons in H. destruct H as [H | H]; [| now apply Hs].
  cbn [startswith] in H. destruct (Ascii.eqb c a) eqn:E; [| discriminate].
  apply Ascii.eqb_eq in E. congruence.
Qed.

Lemma split_dirs_name (s : string) :
  exists dirs name,
    split "/" s = (dirs ++ [name])%list
    /\ ~ contains "/" name
    /\ s = dirs_text dirs +:+ name.
Proof.
  induction s as [|a s IH].
  - exists [], EmptyString. repeat split.
    intros H. apply contains_empty in H. discriminate.
  - destruct IH as (dirs & name & Hsplit & Hname & Hs).
    cbn [split]. destruct (Ascii.eqb a "/") eqn:E.
    + apply Ascii.eqb_eq in E. subst a.
      exists (EmptyString :: dirs), name. rewrite Hsplit. repeat split; [assumption |].
      cbn [dirs_text foldr]. fold (dirs_text dirs). now rewrite Hs at 1.
    + apply Ascii.eqb_neq in E. rewrite Hsplit. destruct dirs as [|d dirs].
      * exists [], (String a name). cbn [app]. repeat split.
        -- now apply not_contains_cons.
        -- cbn [dirs_text foldr] in *. now rewrite Hs at 1.
      * exists (String a d :: dirs), name. cbn [app]. repeat split; [assumption |].
        cbn [dirs_text foldr] in *. fold (dirs_text dirs) in *. now rewrite Hs at 1.
Qed.

(** ** What one call of [submit_job] does *)

Section SubmitJob.
Context (w : world).

Ltac write_steps :=
  repeat first [ erewrite bind_Ret by apply write_insert
               | match goal with
                 | |- context [bind (ret ?x) ?k ?s] =>
                     change (bind (ret x) k s) with (k x s); cbv beta
                 end ].

(** When the environment stops [submit_job], it does so once the script is
    open and before [qsub]; the exception and what the script holds by then
    depend on the environment alone. *)
Lemma submit_job_early :
  script_header w = None ->
  exists e c,
    ((e = TypeError
      /\ ~ (is_Some (w_environ w !! "LD_LIBRARY_PATH")
            /\ is_Some (w_environ w !! "PATH")
            /\ is_Some (w_environ w !! "PYTHONPATH")))
     \/ (e = AttributeError
         /\ is_Some (w_environ w !! "LD_LIBRARY_PATH")
         /\ is_Some (w_environ w !! "PATH")
         /\ is_Some (w_environ w !! "PYTHONPATH")
         /\ w_environ w !! "CONDA_PREFIX" = None))
    /\ forall (self : SubmitSGE) (command job_name : string) (s : state),
         w_open w (opens s) (script_name job_name) = None ->
         submit_job w self command job_name s
         = (Raise e, State (popens s) (S (opens s)) (calls s) (removes s)
                       (<[script_name job_name := c]> (files s)) (trace s)).
Proof.
  intros Hh. unfold script_header in Hh.
  destruct (w_environ w !! "LD_LIBRARY_PATH") as [libpath|] eqn:E1;
    destruct (w_environ w !! "PATH") as [path|] eqn:E2;
    destruct (w_environ w !! "PYTHONPATH") as [pypath|] eqn:E3;
    destruct (w_environ w !! "CONDA_PREFIX") as [conda|] eqn:E4;
    cbn [mbind option_bind] in Hh.
  1: { exfalso. destruct (is_not_empty conda); [| discriminate].
       destruct (split_dirs_name conda) as (dirs & name & Hsp & _).
       rewrite Hsp, last_snoc in Hh. discriminate. }
  all: do 2 eexists; split;
       [| intros self command job_name s Ho;
          unfold submit_job; fold (script_name job_name);
          unfold environ_get at 1 2 3 4; rewrite E1, E2, E3, E4;
          write_steps;
          erewrite bind_Ret by (unfold open_w; rewrite Ho; reflexivity);
          cbn [str_add opt_is_not_empty last_component];
          write_steps;
          repeat (erewrite bind_Raise by reflexivity);
          reflexivity ];
       first [ left; split; [reflexivity |];
               intros (H1 & H2 & H3);
               first [ now apply is_Some_None in H1
                     | now apply is_Some_None in H2
                     | now apply is_Some_None in H3 ]
             | right; repeat split; eauto ].
Qed.

(** Every run of [submit_job], whatever the polls made and the trace so far:
    what it ends with, the counters and files it leaves, and what it did.  It
    did nothing, or called [qsub] on the script of the command, or went on to
    sleep, or went on to remove the script, and it returns in the last case
    only.  The same holds of every [self'] with the same [extra_options]. *)
Lemma submit_job_frame (self : SubmitSGE) (command job_name : string)
    (o c r : nat) (fs : gmap string string) :
  exists res o' c' r' fs' evs,
    (forall (self' : SubmitSGE) (p : nat) (tr : list event),
       extra_options self' = extra_options self ->
       submit_job w self' command job_name (State p o c r fs tr)
       = (res, State p o' c' r' fs' (tr ++ evs)))
    /\ ((res <> Ret tt /\ evs = [])
        \/ exists h,
             script_header w = Some h
             /\ w_open w o (script_name job_name) = None
             /\ w_call w c ["qsub"; extra_options self; "-notify"; "-N"; job_name;
                            script_name job_name] = None
             /\ ((res = Raise (sleep_exn 1%Q) /\ sleepable w 1%Q = false
                  /\ evs = [qsub_call self job_name
                              (<[script_name job_name := h +:+ command]> fs)])
                 \/ (res = Raise OSError /\ sleepable w 1%Q = true
                     /\ w_remove_ok w r (script_name job_name) = false
                     /\ evs = [qsub_call self job_name
                                 (<[script_name job_name := h +:+ command]> fs);
                               ESleep 1%Q])
                 \/ (res = Ret tt /\ sleepable w 1%Q = true
                     /\ w_remove_ok w r (script_name job_name) = true
                     /\ evs = [qsub_call self job_name
                                 (<[script_name job_name := h +:+ command]> fs);
                               ESleep 1%Q; ERemove (script_name job_name)]))).
Proof.
  destruct (w_open w o (script_name job_name)) as [e|] eqn:Ho.
  { exists (Raise e), (S o), c, r, fs, []. split; [| left; split; [discriminate | reflexivity]].
    intros self' p tr _. rewrite app_nil_r.
    now apply (submit_job_not_opened w self' command job_name e (State p o c r fs tr)). }
  destruct (script_header w) as [h|] eqn:Hh.
  2: { destruct (submit_job_early Hh) as (e & c0 & _ & E).
       exists (Raise e), (S o), c, r, (<[script_name job_name := c0]> fs), [].
       split; [| left; split; [discriminate | reflexivity]].
       intros self' p tr _. rewrite app_nil_r.
       now apply (E self' command job_name (State p o c r fs tr)). }
  pose proof (fun self' p tr =>
                submit_job_written w self' command job_name h (State p o c r fs tr) Hh Ho)
    as Hw.
  cbn [popens opens calls removes files trace] in Hw.
  destruct (w_call w c ["qsub"; extra_options self; "-notify"; "-N"; job_name;
                        script_name job_name]) as [e|] eqn:Hc.
  { exists (Raise e), (S o), (S c), r, (<[script_name job_name := h +:+ command]> fs), [].
    split; [| left; split; [discriminate | reflexivity]].
    intros self' p tr Hx. rewrite app_nil_r, Hw, submit_tail_run, Hx, Hc. reflexivity. }
  destruct (sleepable w 1%Q) eqn:Hs.
  2: { exists (Raise (sleep_exn 1%Q)), (S o), (S c), r,
         (<[script_name job_name := h +:+ command]> fs),
         [qsub_call self job_name (<[script_name job_name := h +:+ command]> fs)].
       split.
       - intros self' p tr Hx. rewrite Hw, submit_tail_run, Hx, Hc, Hs.
         unfold qsub_call. now rewrite Hx.
       - right. exists h. repeat split. left. repeat split. }
  destruct (w_remove_ok w r (script_name job_name)) eqn:Hr.
  - exists (Ret tt), (S o), (S c), (S r),
      (delete (script_name job_name) (<[script_name job_name := h +:+ command]> fs)),
      [qsub_call self job_name (<[script_name job_name := h +:+ command]> fs);
       ESleep 1%Q; ERemove (script_name job_name)].
    split.
    + intros self' p tr Hx. rewrite Hw, submit_tail_run, Hx, Hc, Hs, Hr.
      unfold qsub_call. now rewrite Hx.
    + right. exists h. repeat split. right. right. repeat split.
  - exists (Raise OSError), (S o), (S c), (S r),
      (<[script_name job_name := h +:+ command]> fs),
      [qsub_call self job_name (<[script_name job_name := h +:+ command]> fs);
       ESleep 1%Q].
    split.
    + intros self' p tr Hx. rewrite Hw, submit_tail_run, Hx, Hc, Hs, Hr.
      unfold qsub_call. now rewrite Hx.
    + right. exists h. repeat split. right. left. repeat split.
Qed.

End SubmitJob.

(** ** Traces and states *)

Lemma popen_cmds_app (a b : list event) :
  popen_cmds (a ++ b) = (popen_cmds a ++ popen_cmds b)%list.
Proof. apply omap_app. Qed.

Lemma sleeps_app (a b : list event) :
  sleeps (a ++ b) = (sleeps a ++ sleeps b)%list.
Proof. apply omap_app. Qed.

Lemma submissions_app (a b : list event) :
  submissions (a ++ b) = (submissions a ++ submissions b)%list.
Proof. apply omap_app. Qed.

Lemma printed_app (a b : list event) :
  printed (a ++ b) = (printed a ++ printed b)%list.
Proof. apply omap_app. Qed.

Lemma unprinted_app (a b : list event) :
  unprinted (a ++ b) = (unprinted a ++ unprinted b)%list.
Proof. apply List.filter_app. Qed.

Lemma popen_cmds_unprinted (tr : list event) :
  popen_cmds (unprinted tr) = popen_cmds tr.
Proof.
  induction tr as [|e tr IH]; [reflexivity |].
  destruct e; cbn [unprinted List.filter popen_cmds omap list_omap] in *;
    fold (unprinted tr) (popen_cmds tr) (popen_cmds (unprinted tr));
    now rewrite ?IH.
Qed.

Lemma sleeps_unprinted (tr : list event) : sleeps (unprinted tr) = sleeps tr.
Proof.
  induction tr as [|e tr IH]; [reflexivity |].
  destruct e; cbn [unprinted List.filter sleeps omap list_omap] in *;
    fold (unprinted tr) (sleeps tr) (sleeps (unprinted tr));
    now rewrite ?IH.
Qed.

Lemma submissions_unprinted (tr : list event) :
  submissions (unprinted tr) = submissions tr.
Proof.
  induction tr as [|e tr IH]; [reflexivity |].
  destruct e; cbn [unprinted List.filter submissions omap list_omap] in *;
    fold (unprinted tr) (submissions tr) (submissions (unprinted tr));
    now rewrite ?IH.
Qed.

Lemma popen_cmds_waited (cmd : string) (t : seconds) (k : nat) :
  popen_cmds (waited cmd t k) = replicate k cmd.
Proof. induction k as [|k IH]; [reflexivity |]. cbn. now rewrite <- IH. Qed.

Lemma sleeps_waited (cmd : string) (t : seconds) (k : nat) :
  sleeps (waited cmd t k) = replicate k t.
Proof. induction k as [|k IH]; [reflexivity |]. cbn. now rewrite <- IH. Qed.

Lemma submissions_waited (cmd : string) (t : seconds) (k : nat) :
  submissions (waited cmd t k) = [].
Proof. induction k as [|k IH]; [reflexivity |]. cbn. exact IH. Qed.

Lemma printed_waited (cmd : string) (t : seconds) (k : nat) :
  printed (waited cmd t k) = [].
Proof. induction k as [|k IH]; [reflexivity |]. cbn. exact IH. Qed.

Lemma unprinted_waited (cmd : string) (t : seconds) (k : nat) :
  unprinted (waited cmd t k) = waited cmd t k.
Proof. induction k as [|k IH]; [reflexivity |]. cbn. now rewrite <- IH at 2. Qed.

Lemma submissions_if_verbose (self : SubmitSGE) (args : list pyval) :
  submissions (if_verbose self args) = [].
Proof. unfold if_verbose. now destruct (verbose self). Qed.

Lemma popen_cmds_if_verbose (self : SubmitSGE) (args : list pyval) :
  popen_cmds (if_verbose self args) = [].
Proof. unfold if_verbose. now destruct (verbose self). Qed.

Lemma unprinted_if_verbose (self : SubmitSGE) (args : list pyval) :
  unprinted (if_verbose self args) = [].
Proof. unfold if_verbose. now destruct (verbose self). Qed.

Lemma advance_advance (n m : nat) (a b : list event) (s : state) :
  advance m b (advance n a s) = advance (n + m) (a ++ b) s.
Proof.
  unfold advance. cbn [popens opens calls removes files trace].
  now rewrite Nat.add_assoc, app_assoc.
Qed.

Lemma advance_0_nil (s : state) : advance 0 [] s = s.
Proof.
  destruct s as [p o c r f t]. unfold advance. cbn [popens opens calls removes files trace].
  now rewrite Nat.add_0_r, app_nil_r.
Qed.

Lemma did_refl (s : state) : did [] s s.
Proof.
  unfold did. cbn [popen_cmds omap list_omap length].
  rewrite Nat.add_0_r, app_nil_r. repeat split.
Qed.

Lemma did_trans (a b : list event) (s s1 s2 : state) :
  did a s s1 -> did b s1 s2 -> did (a ++ b) s s2.
Proof.
  intros (P1 & O1 & C1 & R1 & F1 & T1) (P2 & O2 & C2 & R2 & F2 & T2).
  unfold did. rewrite P2, P1, O2, O1, C2, C1, R2, R1, F2, F1, T2, T1.
  rewrite popen_cmds_app, length_app, app_assoc. repeat split; lia.
Qed.

Lemma did_advance (n : nat) (evs seen : list event) (s : state) :
  unprinted evs = seen -> n = length (popen_cmds seen) ->
  did seen s (advance n evs s).
Proof.
  intros Hu Hn. unfold did, advance. cbn [popens opens calls removes files trace].
  rewrite unprinted_app, Hu, Hn. repeat split.
Qed.

(** What a run that only polled and slept shows of its polls, sleeps and
    submissions. *)
Lemma did_observed (evs : list event) (s s' : state) :
  did evs s s' ->
  popen_cmds (trace s') = (popen_cmds (trace s) ++ popen_cmds evs)%list
  /\ sleeps (trace s') = (sleeps (trace s) ++ sleeps evs)%list
  /\ submissions (trace s') = (submissions (trace s) ++ submissions evs)%list.
Proof.
  intros (_ & _ & _ & _ & _ & T).
  rewrite <- (popen_cmds_unprinted (trace s')), <- (sleeps_unprinted (trace s')),
          <- (submissions_unprinted (trace s')), T.
  rewrite popen_cmds_app, sleeps_app, submissions_app.
  now rewrite popen_cmds_unprinted, sleeps_unprinted, submissions_unprinted.
Qed.

Lemma total_at_advance (w : world) (self : SubmitSGE) (n : nat) (evs : list event)
    (s : state) (j : nat) :
  total_at w self (advance n evs s) j = total_at w self s (n + j).
Proof. unfold total_at, advance. cbn [popens]. now rewrite Nat.add_assoc. Qed.

Lemma matching_at_advance (w : world) (self : SubmitSGE) (job_name : string)
    (n : nat) (evs : list event) (s : state) (j : nat) :
  matching_at w self job_name (advance n evs s) j = matching_at w self job_name s (n + j).
Proof. unfold matching_at, advance. cbn [popens]. now rewrite Nat.add_assoc. Qed.

Lemma matching_at_nonneg (w : world) (self : SubmitSGE) (job_name : string)
    (s : state) (j : nat) :
  0 <= matching_at w self job_name s j.
Proof. unfold matching_at. rewrite count_fragment_acc. lia. Qed.

(** ** The loops, one iteration at a time *)

Section Loops.
Context (w : world) (self : SubmitSGE).

Abbreviation qstat := (qstat_command w self).
Abbreviation qstat_xml := (qstat_xml_command w self).
Abbreviation N := (maximum_jobs self).
Abbreviation pause := (queue_update self).

Lemma get_jobs_in_queue_advance (s : state) :
  get_jobs_in_queue w self s = (Ret (total_at w self s 0), advance 1 [EPopen qstat] s).
Proof.
  rewrite get_jobs_in_queue_run. unfold advance. now rewrite Nat.add_1_r.
Qed.

Lemma get_jobs_in_queue_name_advance (name_fragment : string) (s : state) :
  get_jobs_in_queue_name w self name_fragment s
  = (Ret (matching_at w self name_fragment s 0),
     advance 1 (EPopen qstat_xml
                 :: if_verbose self [PInt (matching_at w self name_fragment s 0);
                                     PStr "Jobs containing string";
                                     PStr name_fragment; PStr "in queue"]) s).
Proof.
  rewrite get_jobs_in_queue_name_run. unfold advance. now rewrite Nat.add_1_r.
Qed.

Lemma print_if_verbose {A} (args : list pyval) (k : M A) (s : state) :
  bind (if verbose self then print args else ret tt) (fun _ => k) s
  = k (advance 0 (if_verbose self args) s).
Proof.
  unfold if_verbose, advance, bind, print, emit, ret.
  destruct s as [p o c r f t]. cbn [popens opens calls removes files trace].
  rewrite Nat.add_0_r. destruct (verbose self); [reflexivity |].
  now rewrite app_nil_r.
Qed.

Lemma sleep_then {A} (t : seconds) (k : M A) (s : state) :
  bind (sleep w t) (fun _ => k) s
  = if sleepable w t then k (advance 0 [ESleep t] s) else (Raise (sleep_exn t), s).
Proof.
  unfold bind. rewrite sleep_run. now destruct (sleepable w t).
Qed.

(** One iteration of the [while True] loop. *)
Lemma admission_loop_step (fuel : nat) (command job_name : string) (s : state) :
  admission_loop w self (S fuel) command job_name s
  = if total_at w self s 0 <? N
    then submit_job w self command job_name
           (advance 1 (EPopen qstat
                        :: if_verbose self [PStr "Submitting Job"; PStr job_name]) s)
    else if sleepable w pause
         then admission_loop w self fuel command job_name
                (advance 1 [EPopen qstat; ESleep pause] s)
         else (Raise (sleep_exn pause), advance 1 [EPopen qstat] s).
Proof.
  cbn [admission_loop].
  rewrite (bind_Ret _ _ _ _ _ (get_jobs_in_queue_advance s)).
  destruct (total_at w self s 0 <? N).
  - rewrite print_if_verbose, advance_advance. reflexivity.
  - rewrite sleep_then. destruct (sleepable w pause); [| reflexivity].
    rewrite advance_advance. reflexivity.
Qed.

Lemma submit_job_when_ready_start (fuel : nat) (command job_name : string) (s : state) :
  submit_job_when_ready w self fuel command job_name s
  = admission_loop w self fuel command job_name (first_poll w self s).
Proof.
  unfold submit_job_when_ready, first_poll.
  rewrite (bind_Ret _ _ _ _ _ (get_jobs_in_queue_advance s)).
  rewrite print_if_verbose, advance_advance. reflexivity.
Qed.

(** One evaluation of the condition of the drain loop. *)
Lemma drain_loop_step (fuel : nat) (job_name : string) (s : state) :
  drain_loop w self (S fuel) job_name s
  = let n := matching_at w self job_name s 0 in
    let poll := EPopen qstat_xml
                  :: if_verbose self [PInt n; PStr "Jobs containing string";
                                      PStr job_name; PStr "in queue"] in
    if 0 <? n
    then if sleepable w pause
         then drain_loop w self fuel job_name (advance 1 (poll ++ [ESleep pause]) s)
         else (Raise (sleep_exn pause), advance 1 poll s)
    else (Ret tt, advance 1 poll s).
Proof.
  cbn [drain_loop]. cbv zeta.
  rewrite (bind_Ret _ _ _ _ _ (get_jobs_in_queue_name_advance job_name s)).
  destruct (0 <? matching_at w self job_name s 0); [| reflexivity].
  rewrite sleep_then. destruct (sleepable w pause); [| reflexivity].
  rewrite advance_advance. reflexivity.
Qed.

End Loops.

(** ** The outcome of [submit_job] *)

Section Effect.
Context (w : world) (self : SubmitSGE).

Lemma submissions_qsub (job_name c : string) (fs : gmap string string) (rest : list event) :
  submissions rest = [] ->
  submissions (qsub_call self job_name (<[script_name job_name := c]> fs) :: rest)
  = [(job_name, Some c)].
Proof.
  intros Hr. unfold submissions, qsub_call in *. cbn [omap list_omap submission_of].
  rewrite lookup_insert_eq. cbn [String.eqb Ascii.eqb Bool.eqb andb].
  fold (omap submission_of rest). now rewrite Hr.
Qed.

(** Whatever happens, [submit_job] makes no query and prints nothing; it
    calls [qsub] at most once, and exactly once if it returns. *)
Lemma submit_job_effect (command job_name : string) (s : state) :
  let r := submit_job w self command job_name s in
  exists evs,
    trace (snd r) = (trace s ++ evs)%list
    /\ popens (snd r) = popens s
    /\ printed evs = [] /\ popen_cmds evs = []
    /\ ((submissions evs = [] /\ fst r <> Ret tt)
        \/ (submissions evs = [(job_name, job_script w command)]
            /\ is_Some (script_header w))).
Proof.
  cbv zeta. destruct s as [p o c r fs tr].
  destruct (submit_job_frame w self command job_name o c r fs)
    as (res & o' & c' & r' & fs' & evs & E & Hshape).
  rewrite (E self p tr eq_refl). cbn [fst snd trace popens]. exists evs.
  split; [reflexivity |]. split; [reflexivity |].
  destruct Hshape as [[Hres ->] | (h & Hh & _ & _ & Hcases)].
  - repeat split. now left.
  - unfold job_script. rewrite Hh. cbn [fmap option_fmap option_map].
    destruct Hcases as [(_ & _ & ->) | [(_ & _ & _ & ->) | (_ & _ & _ & ->)]];
      (split; [reflexivity |]); (split; [reflexivity |]); right;
      (split; [now apply submissions_qsub | now exists h]).
Qed.

(** [submit_job] where nothing stands in its way but, possibly, the
    removal of the script. *)
Lemma submit_job_submits (command job_name h : string) (s : state) :
  script_header w = Some h ->
  w_open w (opens s) (script_name job_name) = None ->
  w_call w (calls s) ["qsub"; extra_options self; "-notify"; "-N"; job_name;
                      script_name job_name] = None ->
  sleepable w 1%Q = true ->
  exists s',
    submit_job w self command job_name s
    = (if w_remove_ok w (removes s) (script_name job_name) then Ret tt else Raise OSError,
       s')
    /\ popens s' = popens s /\ opens s' = S (opens s) /\ calls s' = S (calls s)
    /\ removes s' = S (removes s)
    /\ trace s'
       = (trace s
          ++ [qsub_call self job_name
                (<[script_name job_name := h +:+ command]> (files s)); ESleep 1%Q]
          ++ if w_remove_ok w (removes s) (script_name job_name)
             then [ERemove (script_name job_name)] else [])%list.
Proof.
  intros Hh Ho Hc Hs.
  rewrite (submit_job_written w self command job_name h s Hh Ho), submit_tail_run.
  cbn [popens opens calls removes files trace]. rewrite Hc, Hs.
  destruct (w_remove_ok w (removes s) (script_name job_name)); eexists;
    (split; [reflexivity |]); cbn [popens opens calls removes files trace];
    rewrite ?app_nil_r; repeat split.
Qed.

End Effect.

(** ** The admission loop *)

Section Admission.
Context (w : world) (self : SubmitSGE).

Abbreviation qstat := (qstat_command w self).
Abbreviation N := (maximum_jobs self).
Abbreviation pause := (queue_update self).

Lemma admission_loop_admits (command job_name : string) (k : nat) :
  forall (fuel : nat) (s : state),
    (k < fuel)%nat ->
    (forall i, (i < k)%nat -> N <= total_at w self s i) ->
    total_at w self s k < N ->
    k = 0%nat \/ sleepable w pause = true ->
    admission_loop w self fuel command job_name s
    = submit_job w self command job_name (admitted w self job_name k s).
Proof.
  induction k as [|k IH]; intros fuel s Hf Hfull Hroom Hsleep.
  - destruct fuel as [|fuel]; [lia |].
    rewrite admission_loop_step.
    apply Z.ltb_lt in Hroom. rewrite Hroom. reflexivity.
  - destruct fuel as [|fuel]; [lia |].
    destruct Hsleep as [Hk | Hsleep]; [discriminate |].
    rewrite admission_loop_step.
    assert (H0 : (total_at w self s 0 <? N) = false).
    { apply Z.ltb_ge. apply Hfull. lia. }
    rewrite H0, Hsleep. rewrite (IH fuel); [| lia | | | now right].
    + unfold admitted. rewrite advance_advance. f_equal.
    + intros i Hi. rewrite total_at_advance. apply Hfull. lia.
    + rewrite total_at_advance. exact Hroom.
Qed.

Lemma admission_loop_waits (command job_name : string) (fuel : nat) :
  forall s : state,
    (forall i, (i < fuel)%nat -> N <= total_at w self s i) ->
    fuel = 0%nat \/ sleepable w pause = true ->
    admission_loop w self fuel command job_name s
    = (OutOfFuel, advance fuel (waited qstat pause fuel) s).
Proof.
  induction fuel as [|fuel IH]; intros s Hfull Hsleep.
  - cbn [admission_loop]. unfold out_of_fuel. now rewrite advance_0_nil.
  - destruct Hsleep as [Hk | Hsleep]; [discriminate |].
    rewrite admission_loop_step.
    assert (H0 : (total_at w self s 0 <? N) = false).
    { apply Z.ltb_ge. apply Hfull. lia. }
    rewrite H0, Hsleep, IH.
    + rewrite advance_advance. reflexivity.
    + intros i Hi. rewrite total_at_advance. apply Hfull. lia.
    + now right.
Qed.

Lemma admission_loop_refused (command job_name : string) (fuel : nat) (s : state) :
  N <= total_at w self s 0 ->
  sleepable w pause = false ->
  admission_loop w self (S fuel) command job_name s
  = (Raise (sleep_exn pause), advance 1 [EPopen qstat] s).
Proof.
  intros Hfull Hsleep. rewrite admission_loop_step.
  apply Z.ltb_ge in Hfull. now rewrite Hfull, Hsleep.
Qed.

(** The counts the loop meets: room at some poll, or none at any. *)
Lemma admission_loop_cases (fuel : nat) (s : state) :
  (exists k, (k < fuel)%nat
     /\ (forall i, (i < k)%nat -> N <= total_at w self s i)
     /\ total_at w self s k < N)
  \/ (forall i, (i < fuel)%nat -> N <= total_at w self s i).
Proof.
  induction fuel as [|fuel IH].
  - right. intros i Hi. lia.
  - destruct IH as [(k & Hk & Hfull & Hroom) | Hfull].
    + left. exists k. repeat split; [lia | assumption | assumption].
    + destruct (Z.lt_ge_cases (total_at w self s fuel) N) as [Hlt | Hge].
      * left. exists fuel. repeat split; [lia | assumption | assumption].
      * right. intros i Hi. destruct (Nat.eq_dec i fuel) as [-> | Hne]; [assumption |].
        apply Hfull. lia.
Qed.

Lemma did_first_poll (s : state) : did [EPopen qstat] s (first_poll w self s).
Proof.
  apply did_advance; [| reflexivity].
  cbn [unprinted List.filter].
  fold (unprinted (if_verbose self [PInt (total_at w self s 0); PStr "out of"; PInt N;
                                    PStr "allowed jobs currently submitted"])).
  now rewrite unprinted_if_verbose.
Qed.

Lemma did_admitted (job_name : string) (k : nat) (s : state) :
  did (waited qstat pause k ++ [EPopen qstat]) s (admitted w self job_name k s).
Proof.
  apply did_advance.
  - rewrite unprinted_app, unprinted_waited. cbn [unprinted List.filter].
    fold (unprinted (if_verbose self [PStr "Submitting Job"; PStr job_name])).
    now rewrite unprinted_if_verbose.
  - rewrite popen_cmds_app, popen_cmds_waited, length_app, length_replicate. reflexivity.
Qed.

Lemma did_waited (k : nat) (s : state) :
  did (waited qstat pause k) s (advance k (waited qstat pause k) s).
Proof.
  apply did_advance; [apply unprinted_waited |].
  now rewrite popen_cmds_waited, length_replicate.
Qed.

Lemma total_at_first_poll (s : state) (j : nat) :
  total_at w self (first_poll w self s) j = total_at w self s (S j).
Proof. unfold first_poll. now rewrite total_at_advance. Qed.

Lemma total_at_popens (s s' : state) (n j : nat) :
  popens s' = (popens s + n)%nat -> total_at w self s' j = total_at w self s (n + j).
Proof. intros H. unfold total_at. rewrite H. now rewrite Nat.add_assoc. Qed.

(** The first poll is not the one that admits: the loop polls again. *)
Lemma submit_job_when_ready_admits (command job_name : string) (k fuel : nat) (s : state) :
  (k < fuel)%nat ->
  (forall i, (i < k)%nat -> N <= total_at w self s (S i)) ->
  total_at w self s (S k) < N ->
  k = 0%nat \/ sleepable w pause = true ->
  submit_job_when_ready w self fuel command job_name s
  = submit_job w self command job_name (admitted w self job_name k (first_poll w self s))
  /\ did (EPopen qstat :: waited qstat pause k ++ [EPopen qstat]) s
       (admitted w self job_name k (first_poll w self s)).
Proof.
  intros Hf Hfull Hroom Hsleep. split.
  - rewrite submit_job_when_ready_start.
    apply admission_loop_admits; [assumption | | | assumption].
    + intros i Hi. rewrite total_at_first_poll. now apply Hfull.
    + now rewrite total_at_first_poll.
  - apply (did_trans [EPopen qstat] _ s (first_poll w self s));
      [apply did_first_poll | apply did_admitted].
Qed.

Lemma submit_job_when_ready_waits (command job_name : string) (fuel : nat) (s : state) :
  (forall i, (i < fuel)%nat -> N <= total_at w self s (S i)) ->
  fuel = 0%nat \/ sleepable w pause = true ->
  exists s', submit_job_when_ready w self fuel command job_name s = (OutOfFuel, s')
    /\ did (EPopen qstat :: waited qstat pause fuel) s s'.
Proof.
  intros Hfull Hsleep. rewrite submit_job_when_ready_start.
  rewrite admission_loop_waits; [| | assumption].
  - eexists. split; [reflexivity |].
    apply (did_trans [EPopen qstat] _ s (first_poll w self s));
      [apply did_first_poll | apply did_waited].
  - intros i Hi. rewrite total_at_first_poll. now apply Hfull.
Qed.

Lemma submit_job_when_ready_refused (command job_name : string) (fuel : nat) (s : state) :
  N <= total_at w self s 1 ->
  sleepable w pause = false ->
  exists s',
    submit_job_when_ready w self (S fuel) command job_name s = (Raise (sleep_exn pause), s')
    /\ did [EPopen qstat; EPopen qstat] s s'.
Proof.
  intros Hfull Hsleep. rewrite submit_job_when_ready_start.
  rewrite admission_loop_refused; [| now rewrite total_at_first_poll | assumption].
  eexists. split; [reflexivity |].
  apply (did_trans [EPopen qstat] [EPopen qstat] s (first_poll w self s));
    [apply did_first_poll |].
  now apply did_advance.
Qed.

(** Every run of [submit_job_when_ready] is one of three. *)
Lemma submit_job_when_ready_cases (fuel : nat) (s : state) :
  (exists k, (k < fuel)%nat
     /\ (forall i, (i < k)%nat -> N <= total_at w self s (S i))
     /\ total_at w self s (S k) < N
     /\ (k = 0%nat \/ sleepable w pause = true))
  \/ ((forall i, (i < fuel)%nat -> N <= total_at w self s (S i))
      /\ (fuel = 0%nat \/ sleepable w pause = true))
  \/ ((0 < fuel)%nat /\ N <= total_at w self s 1 /\ sleepable w pause = false).
Proof.
  destruct (sleepable w pause) eqn:Hs.
  - destruct (admission_loop_cases fuel (first_poll w self s))
      as [(k & Hk & Hfull & Hroom) | Hfull].
    + left. exists k. split; [exact Hk |]. split; [| split; [| now right]].
      * intros i Hi. rewrite <- total_at_first_poll. now apply Hfull.
      * now rewrite <- total_at_first_poll.
    + right. left. split; [| now right].
      intros i Hi. rewrite <- total_at_first_poll. now apply Hfull.
  - destruct fuel as [|fuel].
    + right. left. split; [intros i Hi; lia | now left].
    + destruct (Z.lt_ge_cases (total_at w self s 1) N) as [Hlt | Hge].
      * left. exists 0%nat. split; [lia |]. split; [intros i Hi; lia |].
        split; [exact Hlt | now left].
      * right. right. split; [lia |]. split; [exact Hge | reflexivity].
Qed.

(** Whatever its outcome, [submit_job_when_ready] asks only for the plain
    listing; it submits at most once, after at least two polls, and if it
    returns it has submitted. *)
Lemma submit_job_when_ready_effect (command job_name : string) (fuel : nat) (s : state) :
  let r := submit_job_when_ready w self fuel command job_name s in
  exists n,
    popen_cmds (trace (snd r)) = (popen_cmds (trace s) ++ replicate n qstat)%list
    /\ (exists m, popens (snd r) = (popens s + m)%nat)
    /\ ((submissions (trace (snd r)) = submissions (trace s) /\ fst r <> Ret tt)
        \/ (submissions (trace (snd r))
            = (submissions (trace s) ++ [(job_name, job_script w command)])%list
            /\ is_Some (script_header w) /\ (2 <= n)%nat)).
Proof.
  cbv zeta.
  destruct (submit_job_when_ready_cases fuel s)
    as [(k & Hk & Hfull & Hroom & Hsleep) | [(Hfull & Hsleep) | (Hfuel & Hfull & Hsleep)]].
  - destruct (submit_job_when_ready_admits command job_name k fuel s Hk Hfull Hroom Hsleep)
      as [E D].
    rewrite E. set (s_in := admitted w self job_name k (first_poll w self s)) in *.
    destruct (submit_job_effect w self command job_name s_in)
      as (evs & T & P & _ & C & J).
    destruct (did_observed _ _ _ D) as (Dc & _ & Dj).
    destruct D as (Dp & _).
    exists (k + 2)%nat. rewrite T, popen_cmds_app, C, app_nil_r, Dc.
    split; [| split].
    + cbn [popen_cmds omap list_omap]. fold (popen_cmds (waited qstat pause k ++ [EPopen qstat])).
      rewrite popen_cmds_app, popen_cmds_waited.
      replace (k + 2)%nat with (1 + (k + 1))%nat by lia.
      rewrite (replicate_add 1), (replicate_add k). reflexivity.
    + eexists. rewrite P, Dp. reflexivity.
    + rewrite submissions_app, Dj.
      assert (Hnone : submissions (EPopen qstat :: waited qstat pause k ++ [EPopen qstat]) = []).
      { cbn [submissions omap list_omap submission_of].
        fold (submissions (waited qstat pause k ++ [EPopen qstat])).
        now rewrite submissions_app, submissions_waited. }
      rewrite Hnone, app_nil_r.
      destruct J as [[-> Hr] | [-> Hh]].
      * left. now rewrite app_nil_r.
      * right. repeat split; [assumption | lia].
  - destruct (submit_job_when_ready_waits command job_name fuel s Hfull Hsleep)
      as (s' & E & D).
    rewrite E. cbn [fst snd]. destruct (did_observed _ _ _ D) as (Dc & _ & Dj).
    destruct D as (Dp & _).
    exists (1 + fuel)%nat. rewrite Dc, Dj. split; [| split].
    + cbn [popen_cmds omap list_omap]. fold (popen_cmds (waited qstat pause fuel)).
      now rewrite popen_cmds_waited.
    + eexists. exact Dp.
    + left. cbn [submissions omap list_omap submission_of].
      fold (submissions (waited qstat pause fuel)).
      rewrite submissions_waited, app_nil_r. split; [reflexivity | discriminate].
  - destruct fuel as [|fuel]; [lia |].
    destruct (submit_job_when_ready_refused command job_name fuel s Hfull Hsleep)
      as (s' & E & D).
    rewrite E. cbn [fst snd]. destruct (did_observed _ _ _ D) as (Dc & _ & Dj).
    destruct D as (Dp & _).
    exists 2%nat. rewrite Dc, Dj. split; [reflexivity |]. split; [eexists; exact Dp |].
    left. cbn [submissions omap list_omap submission_of]. rewrite app_nil_r.
    split; [reflexivity | discriminate].
Qed.

End Admission.

(** ** An admission that goes through *)

(** An admission, and then a [submit_job] that nothing stops but, possibly,
    the removal of the script: the whole run, in order. *)
Lemma submit_job_when_ready_submits
    (w : world) (self : SubmitSGE) (command job_name h : string) (s : state) (k fuel : nat) :
  (forall i, (i < k)%nat -> maximum_jobs self <= total_at w self s (S i)) ->
  total_at w self s (S k) < maximum_jobs self ->
  (k < fuel)%nat ->
  k = 0%nat \/ sleepable w (queue_update self) = true ->
  script_header w = Some h ->
  w_open w (opens s) (script_name job_name) = None ->
  w_call w (calls s) ["qsub"; extra_options self; "-notify"; "-N"; job_name;
                      script_name job_name] = None ->
  sleepable w 1%Q = true ->
  exists s',
    submit_job_when_ready w self fuel command job_name s
    = (if w_remove_ok w (removes s) (script_name job_name)
       then Ret tt else Raise OSError, s')
    /\ submissions (trace s')
       = (submissions (trace s) ++ [(job_name, Some (h +:+ command))])%list
    /\ popen_cmds (trace s')
       = (popen_cmds (trace s) ++ replicate (k + 2) (qstat_command w self))%list
    /\ sleeps (trace s')
       = (sleeps (trace s) ++ replicate k (queue_update self) ++ [1%Q])%list
    /\ unprinted (trace s')
       = (unprinted (trace s)
          ++ (EPopen (qstat_command w self)
                :: waited (qstat_command w self) (queue_update self) k
                ++ [EPopen (qstat_command w self)])
          ++ [qsub_call self job_name
                (<[script_name job_name := h +:+ command]> (files s));
              ESleep 1%Q]
          ++ if w_remove_ok w (removes s) (script_name job_name)
             then [ERemove (script_name job_name)] else [])%list.
Proof.
  intros Hfull Hroom Hfuel Hsleep Hh Ho Hc Hs.
  destruct (submit_job_when_ready_admits w self command job_name k fuel s
              Hfuel Hfull Hroom Hsleep) as [E D].
  rewrite E.
  set (s_in := admitted w self job_name k (first_poll w self s)) in *.
  destruct (did_observed _ _ _ D) as (Dq & Ds & Dj).
  destruct D as (_ & Do & Dc & Dr & Df & Du).
  destruct (submit_job_submits w self command job_name h s_in Hh)
    as (s' & E' & _ & _ & _ & _ & T);
    [now rewrite Do | now rewrite Dc | exact Hs |].
  rewrite Dr, Df in *.
  set (q := qstat_command w self) in *. set (pause := queue_update self) in *.
  set (ok := w_remove_ok w (removes s) (script_name job_name)) in *.
  set (c := qsub_call self job_name (<[script_name job_name := h +:+ command]> (files s))) in *.
  assert (Hpolls : popen_cmds (EPopen q :: waited q pause k ++ [EPopen q])
                   = replicate (k + 2) q).
  { cbn [popen_cmds omap list_omap]. fold (popen_cmds (waited q pause k ++ [EPopen q])).
    rewrite popen_cmds_app, popen_cmds_waited.
    replace (k + 2)%nat with (1 + (k + 1))%nat by lia.
    rewrite (replicate_add 1), (replicate_add k). reflexivity. }
  assert (Hsleeps : sleeps (EPopen q :: waited q pause k ++ [EPopen q]) = replicate k pause).
  { cbn [sleeps omap list_omap]. fold (sleeps (waited q pause k ++ [EPopen q])).
    rewrite sleeps_app, sleeps_waited. cbn [sleeps omap list_omap]. now rewrite app_nil_r. }
  assert (Hnone : submissions (EPopen q :: waited q pause k ++ [EPopen q]) = []).
  { cbn [submissions omap list_omap submission_of].
    fold (submissions (waited q pause k ++ [EPopen q])).
    now rewrite submissions_app, submissions_waited. }
  assert (Htail : popen_cmds ([c; ESleep 1%Q] ++ if ok then [ERemove (script_name job_name)]
                                                  else []) = []
                  /\ sleeps ([c; ESleep 1%Q] ++ if ok then [ERemove (script_name job_name)]
                                                else []) = [1%Q]
                  /\ submissions ([c; ESleep 1%Q] ++ if ok then [ERemove (script_name job_name)]
                                                     else [])
                     = [(job_name, Some (h +:+ command))]
                  /\ unprinted ([c; ESleep 1%Q] ++ if ok then [ERemove (script_name job_name)]
                                                   else [])
                     = ([c; ESleep 1%Q] ++ if ok then [ERemove (script_name job_name)]
                                           else [])%list).
  { subst c. split; [destruct ok; reflexivity |]. split; [destruct ok; reflexivity |].
    split; [| destruct ok; reflexivity].
    cbn [app]. apply submissions_qsub. destruct ok; reflexivity. }
  destruct Htail as (Tq & Ts & Tj & Tu).
  exists s'. split; [exact E' |].
  rewrite T, submissions_app, popen_cmds_app, sleeps_app, unprinted_app.
  rewrite Tq, Ts, Tj, Tu, Dq, Ds, Dj, Du, Hpolls, Hsleeps, Hnone.
  rewrite !app_nil_r, <- !app_assoc. repeat split.
Qed.

(** ** The drain loop *)

Section Drain.
Context (w : world) (self : SubmitSGE) (job_name : string).

Abbreviation qstat_xml := (qstat_xml_command w self).
Abbreviation pause := (queue_update self).
Abbreviation matching := (matching_at w self job_name).

Lemma did_drain_poll (n : Z) (s : state) (tail : list event) :
  unprinted tail = tail -> popen_cmds tail = [] ->
  did (EPopen qstat_xml :: tail) s
    (advance 1 ((EPopen qstat_xml
                  :: if_verbose self [PInt n; PStr "Jobs containing string";
                                      PStr job_name; PStr "in queue"]) ++ tail) s).
Proof.
  intros Hu Hc. apply did_advance.
  - rewrite unprinted_app, Hu. cbn [unprinted List.filter].
    fold (unprinted (if_verbose self [PInt n; PStr "Jobs containing string";
                                      PStr job_name; PStr "in queue"])).
    now rewrite unprinted_if_verbose.
  - cbn [popen_cmds omap list_omap]. fold (popen_cmds tail). now rewrite Hc.
Qed.

Lemma drain_loop_returns (k : nat) :
  forall (fuel : nat) (s : state),
    (k < fuel)%nat ->
    (forall i, (i < k)%nat -> 0 < matching s i) ->
    matching s k = 0 ->
    k = 0%nat \/ sleepable w pause = true ->
    exists s', drain_loop w self fuel job_name s = (Ret tt, s')
      /\ did (waited qstat_xml pause k ++ [EPopen qstat_xml]) s s'.
Proof.
  induction k as [|k IH]; intros fuel s Hf Hpos Hzero Hsleep.
  - destruct fuel as [|fuel]; [lia |].
    rewrite drain_loop_step. cbv zeta. rewrite Hzero. cbn [Z.ltb Z.compare].
    eexists. split; [reflexivity |].
    rewrite <- (app_nil_r (_ :: if_verbose _ _)). now apply did_drain_poll.
  - destruct fuel as [|fuel]; [lia |].
    destruct Hsleep as [Hk | Hsleep]; [discriminate |].
    rewrite drain_loop_step. cbv zeta.
    assert (H0 : (0 <? matching s 0) = true) by (apply Z.ltb_lt, Hpos; lia).
    rewrite H0, Hsleep.
    edestruct (IH fuel) as (s' & E & D); [| | | | rewrite E; exists s'; split; [reflexivity |]].
    + lia.
    + intros i Hi. rewrite matching_at_advance. apply Hpos. lia.
    + rewrite matching_at_advance. exact Hzero.
    + now right.
    + eapply (did_trans [EPopen qstat_xml; ESleep pause]); [| exact D].
      now apply did_drain_poll.
Qed.

Lemma drain_loop_waits (fuel : nat) :
  forall s : state,
    (forall i, (i < fuel)%nat -> 0 < matching s i) ->
    fuel = 0%nat \/ sleepable w pause = true ->
    exists s', drain_loop w self fuel job_name s = (OutOfFuel, s')
      /\ did (waited qstat_xml pause fuel) s s'.
Proof.
  induction fuel as [|fuel IH]; intros s Hpos Hsleep.
  - exists s. split; [reflexivity | apply did_refl].
  - destruct Hsleep as [Hk | Hsleep]; [discriminate |].
    rewrite drain_loop_step. cbv zeta.
    assert (H0 : (0 <? matching s 0) = true) by (apply Z.ltb_lt, Hpos; lia).
    rewrite H0, Hsleep.
    edestruct IH as (s' & E & D); [| | rewrite E; exists s'; split; [reflexivity |]].
    + intros i Hi. rewrite matching_at_advance. apply Hpos. lia.
    + now right.
    + eapply (did_trans [EPopen qstat_xml; ESleep pause]); [| exact D].
      now apply did_drain_poll.
Qed.

Lemma drain_loop_refused (fuel : nat) (s : state) :
  0 < matching s 0 ->
  sleepable w pause = false ->
  exists s', drain_loop w self (S fuel) job_name s = (Raise (sleep_exn pause), s')
    /\ did [EPopen qstat_xml] s s'.
Proof.
  intros Hpos Hsleep. rewrite drain_loop_step. cbv zeta.
  apply Z.ltb_lt in Hpos. rewrite Hpos, Hsleep.
  eexists. split; [reflexivity |].
  rewrite <- (app_nil_r (_ :: if_verbose _ _)). now apply did_drain_poll.
Qed.

(** Every run of the drain loop is one of three. *)
Lemma drain_loop_cases (fuel : nat) (s : state) :
  (exists k, (k < fuel)%nat
     /\ (forall i, (i < k)%nat -> 0 < matching s i)
     /\ matching s k = 0
     /\ (k = 0%nat \/ sleepable w pause = true))
  \/ ((forall i, (i < fuel)%nat -> 0 < matching s i)
      /\ (fuel = 0%nat \/ sleepable w pause = true))
  \/ ((0 < fuel)%nat /\ 0 < matching s 0 /\ sleepable w pause = false).
Proof.
  assert (Hcounts : (exists k, (k < fuel)%nat
                       /\ (forall i, (i < k)%nat -> 0 < matching s i)
                       /\ matching s k = 0)
                    \/ (forall i, (i < fuel)%nat -> 0 < matching s i)).
  { induction fuel as [|fuel IH].
    - right. intros i Hi. lia.
    - destruct IH as [(k & Hk & Hpos & Hzero) | Hpos].
      + left. exists k. repeat split; [lia | assumption | assumption].
      + pose proof (matching_at_nonneg w self job_name s fuel) as Hn.
        destruct (Z.eq_dec (matching s fuel) 0) as [Hz | Hnz].
        * left. exists fuel. repeat split; [lia | assumption | assumption].
        * right. intros i Hi. destruct (Nat.eq_dec i fuel) as [-> | Hne]; [lia |].
          apply Hpos. lia. }
  destruct (sleepable w pause) eqn:Hs.
  - destruct Hcounts as [(k & Hk & Hpos & Hzero) | Hpos].
    + left. exists k. split; [exact Hk |]. split; [exact Hpos |]. split; [exact Hzero | now right].
    + right. left. split; [exact Hpos | now right].
  - destruct fuel as [|fuel].
    + right. left. split; [intros i Hi; lia | now left].
    + pose proof (matching_at_nonneg w self job_name s 0) as Hn.
      destruct (Z.eq_dec (matching s 0) 0) as [Hz | Hnz].
      * left. exists 0%nat. split; [lia |]. split; [intros i Hi; lia |].
        split; [exact Hz | now left].
      * right. right. split; [lia |]. split; [lia | reflexivity].
Qed.

(** The loop returns only after a poll that counted zero. *)
Lemma drain_loop_Ret (fuel : nat) (s s' : state) :
  drain_loop w self fuel job_name s = (Ret tt, s') ->
  exists k, (k < fuel)%nat
    /\ (forall i, (i < k)%nat -> 0 < matching s i)
    /\ matching s k = 0
    /\ (k = 0%nat \/ sleepable w pause = true)
    /\ did (waited qstat_xml pause k ++ [EPopen qstat_xml]) s s'.
Proof.
  intros H.
  destruct (drain_loop_cases fuel s)
    as [(k & Hk & Hpos & Hzero & Hsleep) | [(Hpos & Hsleep) | (Hfuel & Hpos & Hsleep)]].
  - destruct (drain_loop_returns k fuel s Hk Hpos Hzero Hsleep) as (s1 & E & D).
    rewrite E in H. injection H as <-. exists k.
    split; [assumption | split; [assumption | split; [assumption | split; assumption]]].
  - destruct (drain_loop_waits fuel s Hpos Hsleep) as (s1 & E & _).
    rewrite E in H. discriminate.
  - destruct fuel as [|fuel]; [lia |].
    destruct (drain_loop_refused fuel s Hpos Hsleep) as (s1 & E & _).
    rewrite E in H. discriminate.
Qed.

(** Whatever its outcome, the loop only polls, prints and sleeps. *)
Lemma drain_loop_effect (fuel : nat) (s : state) :
  exists evs,
    did evs s (snd (drain_loop w self fuel job_name s)) /\ submissions evs = [].
Proof.
  assert (Hsub : forall k, submissions (waited qstat_xml pause k ++ [EPopen qstat_xml]) = []).
  { intros k. now rewrite submissions_app, submissions_waited. }
  destruct (drain_loop_cases fuel s)
    as [(k & Hk & Hpos & Hzero & Hsleep) | [(Hpos & Hsleep) | (Hfuel & Hpos & Hsleep)]].
  - destruct (drain_loop_returns k fuel s Hk Hpos Hzero Hsleep) as (s1 & E & D).
    rewrite E. eexists. split; [exact D | apply Hsub].
  - destruct (drain_loop_waits fuel s Hpos Hsleep) as (s1 & E & D).
    rewrite E. eexists. split; [exact D | apply submissions_waited].
  - destruct fuel as [|fuel]; [lia |].
    destruct (drain_loop_refused fuel s Hpos Hsleep) as (s1 & E & D).
    rewrite E. eexists. split; [exact D | reflexivity].
Qed.

End Drain.

(** ** One command, then a list of commands *)

Section Batch.
Context (w : world) (self : SubmitSGE).

Abbreviation qstat := (qstat_command w self).
Abbreviation N := (maximum_jobs self).

Lemma submit_each_cons (fuel : nat) (command : string) (rest : list string)
    (job_name : string) (s : state) :
  submit_each w self fuel (command :: rest) job_name s
  = match submit_job_when_ready w self fuel command job_name s with
    | (Ret _, s1) => submit_each w self fuel rest job_name s1
    | (Raise e, s1) => (Raise e, s1)
    | (OutOfFuel, s1) => (OutOfFuel, s1)
    end.
Proof. reflexivity. Qed.

(** What [submit_each] has submitted, whatever its outcome: the scripts of an
    initial segment of the commands, in order; all of them when it returns. *)
Lemma submit_each_outcome (fuel : nat) (job_name : string) (command_list : list string) :
  forall s : state,
    let r := submit_each w self fuel command_list job_name s in
    exists n,
      submissions (trace (snd r))
      = (submissions (trace s)
         ++ map (fun c => (job_name, job_script w c)) (take n command_list))%list
      /\ (fst r = Ret tt -> (length command_list <= n)%nat)
      /\ ((0 < n)%nat -> is_Some (script_header w)).
Proof.
  induction command_list as [|c rest IH]; intros s; cbv zeta.
  - cbn [submit_each]. unfold ret. cbn [fst snd].
    exists 0%nat. cbn [take map length]. rewrite app_nil_r. repeat split; lia.
  - rewrite submit_each_cons.
    destruct (submit_job_when_ready_effect w self c job_name fuel s) as (n0 & _ & _ & J0).
    destruct (submit_job_when_ready w self fuel c job_name s) as [[[]|e|] s1] eqn:E;
      cbn [fst snd] in *.
    + destruct J0 as [(_ & Hne) | (J & Hh & _)]; [congruence |].
      destruct (IH s1) as (n & Jn & Hret & Hpos).
      exists (S n). cbn [take map length]. rewrite Jn, J, <- app_assoc.
      repeat split.
      * intros Hr. specialize (Hret Hr). lia.
      * intros _. exact Hh.
    + destruct J0 as [(J & _) | (J & Hh & _)].
      * exists 0%nat. cbn [take map]. rewrite app_nil_r.
        repeat split; [assumption | discriminate | lia].
      * exists 1%nat. cbn [take map]. rewrite take_0. cbn [map].
        repeat split; [assumption | discriminate | intros _; exact Hh].
    + destruct J0 as [(J & _) | (J & Hh & _)].
      * exists 0%nat. cbn [take map]. rewrite app_nil_r.
        repeat split; [assumption | discriminate | lia].
      * exists 1%nat. cbn [take map]. rewrite take_0. cbn [map].
        repeat split; [assumption | discriminate | intros _; exact Hh].
Qed.

(** With room at every poll, a complete environment, scripts that can be
    opened and removed and a [qsub] that can be started, one unit of fuel per
    loop is enough. *)
Lemma submit_each_always_room (fuel : nat) (job_name : string) (command_list : list string) :
  is_Some (script_header w) ->
  (forall n, w_open w n (script_name job_name) = None) ->
  (forall n, w_call w n ["qsub"; extra_options self; "-notify"; "-N"; job_name;
                         script_name job_name] = None) ->
  (forall n, w_remove_ok w n (script_name job_name) = true) ->
  sleepable w 1%Q = true ->
  forall s : state,
    (forall j, total_at w self s j < N) ->
    exists s', submit_each w self (S fuel) command_list job_name s = (Ret tt, s')
      /\ popens s' = (popens s + 2 * length command_list)%nat.
Proof.
  intros [h Hh] Hop Hcl Hrm Hsl. induction command_list as [|c rest IH]; intros s Hroom.
  - exists s. split; [reflexivity |]. cbn [length]. lia.
  - rewrite submit_each_cons.
    destruct (submit_job_when_ready_admits w self c job_name 0 (S fuel) s) as [E D];
      [lia | intros i Hi; lia | apply Hroom | now left |].
    rewrite E.
    destruct (submit_job_submits w self c job_name h
                (admitted w self job_name 0 (first_poll w self s)) Hh
                (Hop _) (Hcl _) Hsl)
      as (s1 & E1 & P1 & _).
    rewrite E1, Hrm.
    destruct D as (Dp & _). cbn [popen_cmds omap list_omap waited concat replicate app length] in Dp.
    destruct (IH s1) as (s' & E' & P').
    { intros j. rewrite (total_at_popens w self s s1 2 j); [apply Hroom |].
      rewrite P1, Dp. reflexivity. }
    exists s'. split; [exact E' |]. rewrite P', P1, Dp. cbn [length]. lia.
Qed.

Lemma submit_job_list_cons (fuel : nat)
    (command : string) (rest : list string) (job_name : string) (wait : bool) (s : state) :
  submit_job_list w self fuel (command :: rest) job_name wait s
  = match submit_job_when_ready w self fuel command job_name s with
    | (Ret _, s1) => submit_job_list w self fuel rest job_name wait s1
    | (Raise e, s1) => (Raise e, s1)
    | (OutOfFuel, s1) => (OutOfFuel, s1)
    end.
Proof.
  unfold submit_job_list, bind. rewrite submit_each_cons.
  destruct (submit_job_when_ready w self fuel command job_name s) as [[[]|e|] s1];
    reflexivity.
Qed.

(** The two phases of [submit_job_list]. *)
Lemma submit_job_list_phases (fuel : nat)
    (command_list : list string) (job_name : string) (wait : bool) (s : state) :
  submit_job_list w self fuel command_list job_name wait s
  = match submit_each w self fuel command_list job_name s with
    | (Ret _, s1) => if wait then drain_loop w self fuel job_name s1 else (Ret tt, s1)
    | (Raise e, s1) => (Raise e, s1)
    | (OutOfFuel, s1) => (OutOfFuel, s1)
    end.
Proof.
  unfold submit_job_list, bind.
  destruct (submit_each w self fuel command_list job_name s) as [[[]|e|] s1];
    destruct wait; reflexivity.
Qed.

End Batch.

(** * The claims *)

(** ** get_jobs_in_queue *)

Lemma job_number_of_negative (lines : list string) :
  job_number_of lines < 0 <-> length lines = 1%nat.
Proof.
  rewrite job_number_of_length. destruct lines as [|l [|l' lines]]; cbn [length]; lia.
Qed.

(** C2 (the code departs from the claim): a listing of exactly one row makes
    [get_jobs_in_queue] return [-1], not [0]: the guard of line 58 only spares
    the empty listing, so the two header rows are subtracted from one.  The
    second part is what the code returns in general: [0] for the empty
    listing, the number of rows less two for every other. *)
Theorem get_jobs_in_queue_one_row_negative
    (user : string) (environ : gmap string string) (remove_ok : nat -> string -> bool)
    (open_exn : nat -> string -> option exn) (call_exn : nat -> list string -> option exn)
    (sleep_max : seconds)
    (self : SubmitSGE) (row : string) (s : state) (lines : list string) :
  fst (get_jobs_in_queue
         (World user environ (fun _ _ => [row]) remove_ok open_exn call_exn sleep_max) self s)
  = Ret (-1)
  /\ fst (get_jobs_in_queue
            (World user environ (fun _ _ => lines) remove_ok open_exn call_exn sleep_max) self s)
     = Ret (match lines with
            | [] => 0
            | _ :: _ => Z.of_nat (length lines) - 2
            end).
Proof.
  split.
  - reflexivity.
  - rewrite get_jobs_in_queue_run. cbn [fst]. unfold total_at. cbn [w_popen].
    now rewrite job_number_of_length.
Qed.

Lemma qstat_command_queue (w : world) (self : SubmitSGE) :
  is_not_empty (queue_name self) = true ->
  qstat_command w self = "qstat -u " +:+ w_user w +:+ "-q " +:+ queue_name self
  /\ qstat_xml_command w self
     = "qstat -u " +:+ w_user w +:+ " -xml " +:+ "-q " +:+ queue_name self.
Proof.
  intros H. unfold qstat_command, qstat_xml_command. rewrite H.
  now rewrite !append_assoc.
Qed.

(** C8 (the code departs from the claim): with the queue [long], user alice,
    [get_jobs_in_queue] runs [qstat -u alice-q long]: no blank separates the
    user name from [-q], so the shell hands [qstat] the user [alice-q] and a
    stray word, and no queue option.  [get_jobs_in_queue_name] builds its
    command with the blank and gets [-u alice] and [-q long].  With no queue
    name the command is [qstat -u alice]. *)
Theorem get_jobs_in_queue_command_malformed :
  let w := world_of [] true in
  let self := with_queue_name "long" default_SubmitSGE in
  popen_cmds (trace (snd (get_jobs_in_queue w self initial))) = ["qstat -u alice-q long"]
  /\ String.words "qstat -u alice-q long" = ["qstat"; "-u"; "alice-q"; "long"]
  /\ popen_cmds (trace (snd (get_jobs_in_queue_name w self "job" initial)))
     = ["qstat -u alice -xml -q long"]
  /\ String.words "qstat -u alice -xml -q long"
     = ["qstat"; "-u"; "alice"; "-xml"; "-q"; "long"]
  /\ popen_cmds (trace (snd (get_jobs_in_queue w default_SubmitSGE initial)))
     = ["qstat -u alice"].
Proof. vm_compute. repeat split. Qed.

(** ** submit_job *)

(** C7, as stated, fails: when [os.remove] fails, [submit_job] ends with the
    [OSError]; nothing is printed, and [qsub] has been called on the script
    by then. *)
Lemma submit_job_remove_failure_raises :
  let w := world_of [] false in
  let r := submit_job w default_SubmitSGE "run" "job" initial in
  fst r = Raise OSError
  /\ printed (trace (snd r)) = []
  /\ submissions (trace (snd r)) = [("job", job_script w "run")]
  /\ is_Some (job_script w "run").
Proof. vm_compute. repeat split. eexists. reflexivity. Qed.

(** C7 (amended): a failure to remove the script is fatal for [submit_job].
    Once the script is written, [qsub] called and the second slept, the
    [OSError] of a failing [os.remove] leaves [submit_job] uncaught; nothing
    is printed about it.  It goes on through [submit_job_when_ready], which
    has no handler either. *)
Theorem submit_job_remove_failure_propagates
    (w : world) (self : SubmitSGE) (command job_name h : string) (s : state) (fuel : nat) :
  script_header w = Some h ->
  w_open w (opens s) (script_name job_name) = None ->
  w_call w (calls s) ["qsub"; extra_options self; "-notify"; "-N"; job_name;
                      script_name job_name] = None ->
  sleepable w 1%Q = true ->
  w_remove_ok w (removes s) (script_name job_name) = false ->
  (exists s',
     submit_job w self command job_name s = (Raise OSError, s')
     /\ printed (trace s') = printed (trace s)
     /\ submissions (trace s')
        = (submissions (trace s) ++ [(job_name, Some (h +:+ command))])%list)
  /\ (total_at w self s 1 < maximum_jobs self ->
      exists s',
        submit_job_when_ready w self (S fuel) command job_name s = (Raise OSError, s')
        /\ submissions (trace s')
           = (submissions (trace s) ++ [(job_name, Some (h +:+ command))])%list).
Proof.
  intros Hh Ho Hc Hs Hrm.
  assert (Hsub : forall fs, submissions
                   ([qsub_call self job_name (<[script_name job_name := h +:+ command]> fs);
                     ESleep 1%Q] ++ [])
                 = [(job_name, Some (h +:+ command))]).
  { intros fs. rewrite app_nil_r. now apply submissions_qsub. }
  split.
  - destruct (submit_job_submits w self command job_name h s Hh Ho Hc Hs)
      as (s' & E & _ & _ & _ & _ & T).
    rewrite Hrm in E, T. exists s'. split; [exact E |].
    rewrite T, printed_app, submissions_app, Hsub. split; [| reflexivity].
    cbn [printed omap list_omap app]. now rewrite app_nil_r.
  - intros Hroom.
    destruct (submit_job_when_ready_admits w self command job_name 0 (S fuel) s)
      as [E D]; [lia | intros i Hi; lia | exact Hroom | now left |].
    rewrite E. set (s_in := admitted w self job_name 0 (first_poll w self s)) in *.
    destruct (did_observed _ _ _ D) as (_ & _ & Dj).
    destruct D as (_ & Do & Dc & Dr & _).
    destruct (submit_job_submits w self command job_name h s_in Hh)
      as (s' & E' & _ & _ & _ & _ & T);
      [now rewrite Do | now rewrite Dc | exact Hs |].
    rewrite Dr, Hrm in E', T. exists s'. split; [exact E' |].
    rewrite T, submissions_app, Hsub, Dj. cbn [submissions omap list_omap submission_of app].
    now rewrite app_nil_r.
Qed.

Lemma submit_job_remove_failure_propagates_witness :
  let w := world_of [] false in
  exists h,
    script_header w = Some h
    /\ w_open w (opens initial) (script_name "job") = None
    /\ w_call w (calls initial) ["qsub"; extra_options default_SubmitSGE; "-notify"; "-N";
                                 "job"; script_name "job"] = None
    /\ sleepable w 1%Q = true
    /\ w_remove_ok w (removes initial) (script_name "job") = false
    /\ (exists s',
          submit_job w default_SubmitSGE "run" "job" initial = (Raise OSError, s')
          /\ printed (trace s') = printed (trace initial)
          /\ submissions (trace s')
             = (submissions (trace initial) ++ [("job", Some (h +:+ "run"))])%list)
    /\ (exists s',
          submit_job_when_ready w default_SubmitSGE 1 "run" "job" initial
          = (Raise OSError, s')
          /\ submissions (trace s')
             = (submissions (trace initial) ++ [("job", Some (h +:+ "run"))])%list).
Proof.
  cbv zeta.
  destruct (script_header (world_of [] false)) as [h|] eqn:Hh; [| discriminate Hh].
  assert (Ho : w_open (world_of [] false) (opens initial) (script_name "job") = None)
    by reflexivity.
  assert (Hc : w_call (world_of [] false) (calls initial)
                 ["qsub"; extra_options default_SubmitSGE; "-notify"; "-N"; "job";
                  script_name "job"] = None)
    by reflexivity.
  assert (Hs : sleepable (world_of [] false) 1%Q = true) by reflexivity.
  assert (Hrm : w_remove_ok (world_of [] false) (removes initial) (script_name "job") = false)
    by reflexivity.
  destruct (submit_job_remove_failure_propagates
              (world_of [] false) default_SubmitSGE "run" "job" h initial 0 Hh Ho Hc Hs Hrm)
    as [Hjob Hready].
  exists h. split; [reflexivity |]. split; [exact Ho |]. split; [exact Hc |].
  split; [exact Hs |]. split; [exact Hrm |]. split; [exact Hjob |].
  apply Hready. reflexivity.
Defined.

(** ** submit_job_when_ready *)

(** C1, as stated, fails.  With a ceiling of one job and the counts 0, 5, 0
    the count is below the ceiling at the very first poll (step 0), yet the
    code polls three times and sleeps one [queue_update] before it submits:
    the count of line 154 is only printed, the loop polls anew.  (The second
    sleep, of one second, is the one [submit_job] makes after [qsub].) *)
Lemma submit_job_when_ready_first_poll_discarded :
  let w := world_of [[]; rows 7; []] true in
  let self := with_maximum_jobs 1 default_SubmitSGE in
  let r := submit_job_when_ready w self 5 "run" "job" initial in
  maximum_jobs self = 1
  /\ total_at w self initial 0 = 0
  /\ total_at w self initial 1 = 5
  /\ total_at w self initial 2 = 0
  /\ fst r = Ret tt
  /\ popen_cmds (trace (snd r)) = ["qstat -u alice"; "qstat -u alice"; "qstat -u alice"]
  /\ sleeps (trace (snd r)) = [60%Q; 1%Q]
  /\ submissions (trace (snd r)) = [("job", job_script w "run")].
Proof. vm_compute. repeat split. Qed.

(** C1 (amended): [submit_job_when_ready] first polls the total count once,
    only to print it.  If the polls after that one see counts at or above
    [maximum_jobs] [k] times and then a count below it, and [queue_update] is
    a duration [time.sleep] accepts (or [k] is zero), then the code polls,
    then [k] times polls and sleeps [queue_update], polls once more, and
    enters [submit_job]: exactly once, after exactly [k + 2] polls and
    exactly [k] sleeps.  If moreover the environment is complete, the script
    can be opened and [qsub] started, the job is handed to [qsub] exactly
    once, and the only other sleep is the one second of [submit_job]. *)
Theorem submit_job_when_ready_admission
    (w : world) (self : SubmitSGE) (command job_name : string) (s : state) (k fuel : nat) :
  (forall i, (i < k)%nat -> maximum_jobs self <= total_at w self s (S i)) ->
  total_at w self s (S k) < maximum_jobs self ->
  (k < fuel)%nat ->
  k = 0%nat \/ sleepable w (queue_update self) = true ->
  exists s_in,
    did (EPopen (qstat_command w self)
           :: waited (qstat_command w self) (queue_update self) k
           ++ [EPopen (qstat_command w self)]) s s_in
    /\ submit_job_when_ready w self fuel command job_name s
       = submit_job w self command job_name s_in
    /\ forall h, script_header w = Some h ->
       w_open w (opens s) (script_name job_name) = None ->
       w_call w (calls s) ["qsub"; extra_options self; "-notify"; "-N"; job_name;
                           script_name job_name] = None ->
       sleepable w 1%Q = true ->
       exists s',
         submit_job_when_ready w self fuel command job_name s
         = (if w_remove_ok w (removes s) (script_name job_name)
            then Ret tt else Raise OSError, s')
         /\ submissions (trace s')
            = (submissions (trace s) ++ [(job_name, Some (h +:+ command))])%list
         /\ popen_cmds (trace s')
            = (popen_cmds (trace s) ++ replicate (k + 2) (qstat_command w self))%list
         /\ sleeps (trace s')
            = (sleeps (trace s) ++ replicate k (queue_update self) ++ [1%Q])%list
         /\ unprinted (trace s')
            = (unprinted (trace s)
               ++ (EPopen (qstat_command w self)
                     :: waited (qstat_command w self) (queue_update self) k
                     ++ [EPopen (qstat_command w self)])
               ++ [qsub_call self job_name
                     (<[script_name job_name := h +:+ command]> (files s));
                   ESleep 1%Q]
               ++ if w_remove_ok w (removes s) (script_name job_name)
                  then [ERemove (script_name job_name)] else [])%list.
Proof.
  intros Hfull Hroom Hfuel Hsleep.
  destruct (submit_job_when_ready_admits w self command job_name k fuel s
              Hfuel Hfull Hroom Hsleep) as [E D].
  exists (admitted w self job_name k (first_poll w self s)).
  split; [exact D |]. split; [exact E |].
  intros h Hh Ho Hc Hs.
  exact (submit_job_when_ready_submits w self command job_name h s k fuel
           Hfull Hroom Hfuel Hsleep Hh Ho Hc Hs).
Qed.

Lemma submit_job_when_ready_admission_witness :
  let w := world_of [[]; rows 7; []] true in
  let self := with_maximum_jobs 1 default_SubmitSGE in
  (forall i, (i < 1)%nat -> maximum_jobs self <= total_at w self initial (S i))
  /\ total_at w self initial 2 < maximum_jobs self
  /\ (1 < 5)%nat
  /\ (1 = 0 \/ sleepable w (queue_update self) = true)%nat
  /\ exists h,
       script_header w = Some h
       /\ w_open w (opens initial) (script_name "job") = None
       /\ w_call w (calls initial) ["qsub"; extra_options self; "-notify"; "-N"; "job";
                                    script_name "job"] = None
       /\ sleepable w 1%Q = true
       /\ exists s',
            submit_job_when_ready w self 5 "run" "job" initial = (Ret tt, s')
            /\ submissions (trace s') = [("job", Some (h +:+ "run"))]
            /\ popen_cmds (trace s') = replicate 3 (qstat_command w self)
            /\ sleeps (trace s') = [queue_update self; 1%Q]
            /\ unprinted (trace s')
               = [EPopen (qstat_command w self);
                  EPopen (qstat_command w self); ESleep (queue_update self);
                  EPopen (qstat_command w self);
                  qsub_call self "job" (<[script_name "job" := h +:+ "run"]> ∅);
                  ESleep 1%Q; ERemove (script_name "job")].
Proof.
  cbv zeta.
  set (w := world_of [[]; rows 7; []] true).
  set (self := with_maximum_jobs 1 default_SubmitSGE).
  assert (H1 : forall i, (i < 1)%nat -> maximum_jobs self <= total_at w self initial (S i)).
  { intros i Hi. assert (i = 0%nat) as -> by lia. vm_compute. discriminate. }
  assert (H2 : total_at w self initial 2 < maximum_jobs self) by (vm_compute; reflexivity).
  assert (H3 : (1 < 5)%nat) by lia.
  assert (H4 : (1 = 0 \/ sleepable w (queue_update self) = true)%nat)
    by (right; vm_compute; reflexivity).
  split; [exact H1 |]. split; [exact H2 |]. split; [exact H3 |]. split; [exact H4 |].
  destruct (script_header w) as [h|] eqn:Hh; [| discriminate Hh].
  assert (Ho : w_open w (opens initial) (script_name "job") = None) by reflexivity.
  assert (Hc : w_call w (calls initial) ["qsub"; extra_options self; "-notify"; "-N"; "job";
                                         script_name "job"] = None) by reflexivity.
  assert (Hs : sleepable w 1%Q = true) by reflexivity.
  exists h. split; [reflexivity |]. split; [exact Ho |]. split; [exact Hc |].
  split; [exact Hs |].
  destruct (submit_job_when_ready_admission w self "run" "job" initial 1 5 H1 H2 H3 H4)
    as (s_in & _ & _ & Hrun).
  destruct (Hrun h Hh Ho Hc Hs) as (s' & E & J & P & Sl & U).
  exists s'. split; [exact E |]. split; [exact J |]. split; [exact P |].
  split; [exact Sl | exact U].
Defined.

(** With no room at any poll the job is never submitted: the loop polls and
    sleeps for as long as it is run. *)
Lemma submit_job_when_ready_no_room
    (w : world) (self : SubmitSGE) (command job_name : string) (s : state) (fuel : nat) :
  (forall j, maximum_jobs self <= total_at w self s (S j)) ->
  sleepable w (queue_update self) = true ->
  exists s',
    submit_job_when_ready w self fuel command job_name s = (OutOfFuel, s')
    /\ did (EPopen (qstat_command w self)
              :: waited (qstat_command w self) (queue_update self) fuel) s s'.
Proof.
  intros Hfull Hs. apply submit_job_when_ready_waits; [| now right].
  intros i _. apply Hfull.
Qed.

(** C3 (the code departs from the claim): with [maximum_jobs = 0] a job is
    submitted as soon as [qstat] prints exactly one line, because
    [get_jobs_in_queue] then returns [-1], which is below [0].  Here the poll
    of the loop reads one line and the job is submitted at the first
    iteration. *)
Theorem submit_job_when_ready_zero_ceiling_submits :
  let w := world_of [[]; rows 1] true in
  let self := with_maximum_jobs 0 default_SubmitSGE in
  let r := submit_job_when_ready w self 1 "run" "job" initial in
  maximum_jobs self = 0
  /\ total_at w self initial 1 = -1
  /\ fst r = Ret tt
  /\ submissions (trace (snd r)) = [("job", job_script w "run")]
  /\ is_Some (job_script w "run").
Proof. vm_compute. repeat split. eexists. reflexivity. Qed.

(** What the ceiling of zero does when no listing has exactly one line: the
    counts are never negative, there is never room. *)
Lemma submit_job_when_ready_zero_ceiling_waits
    (w : world) (self : SubmitSGE) (command job_name : string) (s : state) (fuel : nat) :
  maximum_jobs self = 0 ->
  (forall j, length (w_popen w j (qstat_command w self)) <> 1%nat) ->
  sleepable w (queue_update self) = true ->
  exists s',
    submit_job_when_ready w self fuel command job_name s = (OutOfFuel, s')
    /\ submissions (trace s') = submissions (trace s).
Proof.
  intros H0 Hrows Hs.
  destruct (submit_job_when_ready_no_room w self command job_name s fuel) as (s' & E & D);
    [| exact Hs |].
  - intros j. rewrite H0. unfold total_at.
    destruct (Z.lt_ge_cases (job_number_of (w_popen w (popens s + S j) (qstat_command w self))) 0)
      as [Hneg | Hok]; [| exact Hok].
    apply job_number_of_negative in Hneg. now apply Hrows in Hneg.
  - exists s'. split; [exact E |].
    destruct (did_observed _ _ _ D) as (_ & _ & Dj). rewrite Dj.
    cbn [submissions omap list_omap submission_of].
    fold (submissions (waited (qstat_command w self) (queue_update self) fuel)).
    now rewrite submissions_waited, app_nil_r.
Qed.

(** ** submit_job_list *)

(** The drain loop submits nothing. *)
Lemma drain_loop_submissions (w : world) (self : SubmitSGE) (job_name : string)
    (fuel : nat) (s : state) :
  submissions (trace (snd (drain_loop w self fuel job_name s))) = submissions (trace s).
Proof.
  destruct (drain_loop_effect w self job_name fuel s) as (evs & D & J).
  destruct (did_observed _ _ _ D) as (_ & _ & Dj). now rewrite Dj, J, app_nil_r.
Qed.

(** C4: [submit_job_list] submits one job per command, in the order of the
    list, all under [job_name], the script of each job being the header and
    then the command.  Whatever the outcome, what has been submitted is an
    initial segment of that sequence; it is the whole sequence when the call
    returns.  The commands are handled one after the other: the admission of
    the next command starts in the state the previous submission left.  With
    room at every poll, a complete environment, a script that can be opened
    and removed and a [qsub] that can be started, the call does return. *)
Theorem submit_job_list_in_order
    (w : world) (self : SubmitSGE) (fuel : nat) (command_list : list string)
    (job_name : string) (wait_for_completion : bool) (s : state) :
  let r := submit_job_list w self fuel command_list job_name wait_for_completion s in
  let expected := map (fun c => (job_name, job_script w c)) command_list in
  (exists n, submissions (trace (snd r)) = (submissions (trace s) ++ take n expected)%list)
  /\ (fst r = Ret tt ->
      submissions (trace (snd r)) = (submissions (trace s) ++ expected)%list
      /\ (command_list <> [] -> is_Some (script_header w)))
  /\ (forall command rest, command_list = command :: rest ->
      r = match submit_job_when_ready w self fuel command job_name s with
          | (Ret _, s1) => submit_job_list w self fuel rest job_name wait_for_completion s1
          | (Raise e, s1) => (Raise e, s1)
          | (OutOfFuel, s1) => (OutOfFuel, s1)
          end)
  /\ (is_Some (script_header w) ->
      (forall n, w_open w n (script_name job_name) = None) ->
      (forall n, w_call w n ["qsub"; extra_options self; "-notify"; "-N"; job_name;
                             script_name job_name] = None) ->
      sleepable w 1%Q = true ->
      (forall n, w_remove_ok w n (script_name job_name) = true) ->
      (forall j, total_at w self s j < maximum_jobs self) ->
      wait_for_completion = false -> (0 < fuel)%nat ->
      fst r = Ret tt).
Proof.
  cbv zeta.
  destruct (submit_each_outcome w self fuel job_name command_list s)
    as (n & Jn & Hall & Hpos).
  assert (Hsub : submissions
                   (trace (snd (submit_job_list w self fuel command_list job_name
                                  wait_for_completion s)))
                 = submissions (trace (snd (submit_each w self fuel command_list job_name s)))).
  { rewrite submit_job_list_phases.
    destruct (submit_each w self fuel command_list job_name s) as [[[]|e|] s1];
      [| reflexivity | reflexivity].
    destruct wait_for_completion; [| reflexivity].
    apply drain_loop_submissions. }
  assert (Hret : fst (submit_job_list w self fuel command_list job_name
                        wait_for_completion s) = Ret tt ->
                 fst (submit_each w self fuel command_list job_name s) = Ret tt).
  { rewrite submit_job_list_phases.
    destruct (submit_each w self fuel command_list job_name s) as [[[]|e|] s1];
      [reflexivity | discriminate | discriminate]. }
  split; [| split; [| split]].
  - exists n. rewrite Hsub, Jn. now rewrite <- fmap_take.
  - intros Hr. specialize (Hret Hr). specialize (Hall Hret).
    rewrite Hsub, Jn, take_ge by exact Hall. split; [reflexivity |].
    intros Hne. apply Hpos.
    destruct command_list; [congruence | cbn [length] in Hall; lia].
  - intros command rest ->. apply submit_job_list_cons.
  - intros Hh Ho Hc Hs Hrm Hroom -> Hfuel. destruct fuel as [|fuel]; [lia |].
    destruct (submit_each_always_room w self fuel job_name command_list Hh Ho Hc Hrm Hs s Hroom)
      as (s' & E & _).
    rewrite submit_job_list_phases, E. reflexivity.
Qed.

(** Three commands, counts always below the ceiling: three submissions, in
    the order of the list, under the one job name. *)
Lemma submit_job_list_three_commands :
  let w := world_of [] true in
  let r := submit_job_list w default_SubmitSGE 1 ["cmd1"; "cmd2"; "cmd3"] "batch" false
             initial in
  is_Some (script_header w)
  /\ (forall n, w_open w n (script_name "batch") = None)
  /\ (forall n, w_call w n ["qsub"; extra_options default_SubmitSGE; "-notify"; "-N";
                            "batch"; script_name "batch"] = None)
  /\ sleepable w 1%Q = true
  /\ (forall n, w_remove_ok w n (script_name "batch") = true)
  /\ (forall j, total_at w default_SubmitSGE initial j < maximum_jobs default_SubmitSGE)
  /\ fst r = Ret tt
  /\ submissions (trace (snd r))
     = [("batch", job_script w "cmd1"); ("batch", job_script w "cmd2");
        ("batch", job_script w "cmd3")].
Proof.
  cbv zeta.
  assert (Hh : is_Some (script_header (world_of [] true)))
    by (eexists; vm_compute; reflexivity).
  assert (Ho : forall n, w_open (world_of [] true) n (script_name "batch") = None)
    by (intros n; reflexivity).
  assert (Hc : forall n, w_call (world_of [] true) n
                 ["qsub"; extra_options default_SubmitSGE; "-notify"; "-N"; "batch";
                  script_name "batch"] = None)
    by (intros n; reflexivity).
  assert (Hs : sleepable (world_of [] true) 1%Q = true) by reflexivity.
  assert (Hrm : forall n, w_remove_ok (world_of [] true) n (script_name "batch") = true)
    by (intros n; reflexivity).
  assert (Hroom : forall j, total_at (world_of [] true) default_SubmitSGE initial j
                            < maximum_jobs default_SubmitSGE).
  { intros j. unfold total_at, world_of. cbn [w_popen popens initial Nat.add].
    destruct j; reflexivity. }
  destruct (submit_job_list_in_order (world_of [] true) default_SubmitSGE 1
              ["cmd1"; "cmd2"; "cmd3"] "batch" false initial)
    as (_ & Hall & _ & Hreturns).
  assert (Hr : fst (submit_job_list (world_of [] true) default_SubmitSGE 1
                      ["cmd1"; "cmd2"; "cmd3"] "batch" false initial) = Ret tt)
    by (apply Hreturns; [exact Hh | exact Ho | exact Hc | exact Hs | exact Hrm
                         | exact Hroom | reflexivity | lia]).
  split; [exact Hh |]. split; [exact Ho |]. split; [exact Hc |]. split; [exact Hs |].
  split; [exact Hrm |]. split; [exact Hroom |]. split; [exact Hr |].
  apply (Hall Hr).
Defined.

(** C5: with [wait_for_completion], once the commands are submitted
    [submit_job_list] polls the count of lines holding [job_name]; while the
    count is positive it sleeps [queue_update] and polls again.  If the counts
    are positive [k] times and then zero, and [queue_update] is a duration
    [time.sleep] accepts (or [k] is zero), the call returns after [k] rounds
    of a poll and then a sleep, and one more poll; and it returns only so:
    after a poll that counted zero, every poll before it having counted more
    and been followed by a sleep.  A positive count with a [queue_update]
    that [time.sleep] refuses ends the call with the exception of
    [time.sleep], after that one poll. *)
Theorem submit_job_list_drain
    (w : world) (self : SubmitSGE) (fuel : nat) (command_list : list string)
    (job_name : string) (s s1 : state) :
  submit_each w self fuel command_list job_name s = (Ret tt, s1) ->
  (forall k, (k < fuel)%nat ->
     (forall i, (i < k)%nat -> 0 < matching_at w self job_name s1 i) ->
     matching_at w self job_name s1 k = 0 ->
     k = 0%nat \/ sleepable w (queue_update self) = true ->
     exists s', submit_job_list w self fuel command_list job_name true s = (Ret tt, s')
       /\ did (waited (qstat_xml_command w self) (queue_update self) k
                 ++ [EPopen (qstat_xml_command w self)]) s1 s')
  /\ (forall s', submit_job_list w self fuel command_list job_name true s = (Ret tt, s') ->
      exists k, (k < fuel)%nat
        /\ (forall i, (i < k)%nat -> 0 < matching_at w self job_name s1 i)
        /\ matching_at w self job_name s1 k = 0
        /\ (k = 0%nat \/ sleepable w (queue_update self) = true)
        /\ did (waited (qstat_xml_command w self) (queue_update self) k
                  ++ [EPopen (qstat_xml_command w self)]) s1 s')
  /\ ((0 < fuel)%nat ->
      0 < matching_at w self job_name s1 0 ->
      sleepable w (queue_update self) = false ->
      exists s', submit_job_list w self fuel command_list job_name true s
                 = (Raise (sleep_exn (queue_update self)), s')
        /\ did [EPopen (qstat_xml_command w self)] s1 s').
Proof.
  intros E. split; [| split].
  - intros k Hk Hpos Hzero Hsleep. rewrite submit_job_list_phases, E.
    now apply drain_loop_returns.
  - intros s' H. rewrite submit_job_list_phases, E in H.
    now apply drain_loop_Ret.
  - intros Hfuel Hpos Hsleep. rewrite submit_job_list_phases, E.
    destruct fuel as [|fuel]; [lia |]. now apply drain_loop_refused.
Qed.

(** One command, then the counts 2, 1, 0 of lines holding the job name:
    a poll, a sleep, a poll, a sleep, a poll, and the call returns. *)
Lemma submit_job_list_drain_2_1_0 :
  let w := world_of [[]; []; ["batch" +:+ LF; "batch" +:+ LF]; ["batch" +:+ LF]; []] true in
  let s1 := snd (submit_each w default_SubmitSGE 3 ["cmd1"] "batch" initial) in
  submit_each w default_SubmitSGE 3 ["cmd1"] "batch" initial = (Ret tt, s1)
  /\ matching_at w default_SubmitSGE "batch" s1 0 = 2
  /\ matching_at w default_SubmitSGE "batch" s1 1 = 1
  /\ matching_at w default_SubmitSGE "batch" s1 2 = 0
  /\ sleepable w (queue_update default_SubmitSGE) = true
  /\ exists s',
       submit_job_list w default_SubmitSGE 3 ["cmd1"] "batch" true initial = (Ret tt, s')
       /\ did [EPopen "qstat -u alice -xml "; ESleep 60%Q;
               EPopen "qstat -u alice -xml "; ESleep 60%Q;
               EPopen "qstat -u alice -xml "] s1 s'
       /\ popen_cmds (trace s')
          = (popen_cmds (trace s1) ++ replicate 3 "qstat -u alice -xml ")%list.
Proof.
  cbv zeta.
  set (w := world_of [[]; []; ["batch" +:+ LF; "batch" +:+ LF]; ["batch" +:+ LF]; []] true).
  set (s1 := snd (submit_each w default_SubmitSGE 3 ["cmd1"] "batch" initial)).
  assert (E : submit_each w default_SubmitSGE 3 ["cmd1"] "batch" initial = (Ret tt, s1))
    by (vm_compute; reflexivity).
  assert (M0 : matching_at w default_SubmitSGE "batch" s1 0 = 2) by (vm_compute; reflexivity).
  assert (M1 : matching_at w default_SubmitSGE "batch" s1 1 = 1) by (vm_compute; reflexivity).
  assert (M2 : matching_at w default_SubmitSGE "batch" s1 2 = 0) by (vm_compute; reflexivity).
  assert (Hs : sleepable w (queue_update default_SubmitSGE) = true) by (vm_compute; reflexivity).
  split; [exact E |]. split; [exact M0 |]. split; [exact M1 |]. split; [exact M2 |].
  split; [exact Hs |].
  destruct (submit_job_list_drain w default_SubmitSGE 3 ["cmd1"] "batch" initial s1 E)
    as (Hreturns & _ & _).
  destruct (Hreturns 2%nat) as (s' & R & D); [lia | | exact M2 | now right |].
  { intros i Hi. destruct i as [|[|i]]; [rewrite M0; lia | rewrite M1; lia | lia]. }
  exists s'. split; [exact R |]. split; [exact D |].
  destruct (did_observed _ _ _ D) as (Dq & _). exact Dq.
Defined.

(** C9: for the empty list nothing is submitted.  Without
    [wait_for_completion] nothing happens at all.  With it the drain check is
    still made: if the first count is zero the call returns after that one
    poll, without sleeping; if lines of other jobs hold [job_name] the call
    sleeps [queue_update], where [time.sleep] accepts it, and goes on with
    the drain loop, and it never returns for as long as every poll counts
    such a line; where [time.sleep] refuses [queue_update] the call ends with
    its exception after the one poll. *)
Theorem submit_job_list_empty
    (w : world) (self : SubmitSGE) (fuel : nat) (job_name : string) (s : state) :
  submit_job_list w self fuel [] job_name false s = (Ret tt, s)
  /\ (forall wait,
        submissions (trace (snd (submit_job_list w self fuel [] job_name wait s)))
        = submissions (trace s))
  /\ (matching_at w self job_name s 0 = 0 ->
      exists s', submit_job_list w self (S fuel) [] job_name true s = (Ret tt, s')
        /\ did [EPopen (qstat_xml_command w self)] s s')
  /\ (0 < matching_at w self job_name s 0 ->
      sleepable w (queue_update self) = true ->
      exists s1, did [EPopen (qstat_xml_command w self); ESleep (queue_update self)] s s1
        /\ submit_job_list w self (S fuel) [] job_name true s
           = drain_loop w self fuel job_name s1)
  /\ ((forall i, 0 < matching_at w self job_name s i) ->
      sleepable w (queue_update self) = true ->
      exists s', submit_job_list w self fuel [] job_name true s = (OutOfFuel, s')
        /\ did (waited (qstat_xml_command w self) (queue_update self) fuel) s s')
  /\ (0 < matching_at w self job_name s 0 ->
      sleepable w (queue_update self) = false ->
      exists s', submit_job_list w self (S fuel) [] job_name true s
                 = (Raise (sleep_exn (queue_update self)), s')
        /\ did [EPopen (qstat_xml_command w self)] s s').
Proof.
  split; [reflexivity |]. split; [| split; [| split; [| split]]].
  - intros wait. rewrite submit_job_list_phases. cbn [submit_each]. unfold ret.
    destruct wait; [| reflexivity]. apply drain_loop_submissions.
  - intros Hzero. rewrite submit_job_list_phases. cbn [submit_each]. unfold ret.
    apply (drain_loop_returns w self job_name 0 (S fuel) s);
      [lia | intros i Hi; lia | exact Hzero | now left].
  - intros Hpos Hsleep. rewrite submit_job_list_phases. cbn [submit_each]. unfold ret.
    rewrite drain_loop_step. cbv zeta. apply Z.ltb_lt in Hpos. rewrite Hpos, Hsleep.
    eexists. split; [| reflexivity].
    now apply did_drain_poll.
  - intros Hpos Hsleep. rewrite submit_job_list_phases. cbn [submit_each]. unfold ret.
    apply drain_loop_waits; [| now right]. intros i _. apply Hpos.
  - intros Hpos Hsleep. rewrite submit_job_list_phases. cbn [submit_each]. unfold ret.
    now apply drain_loop_refused.
Qed.

(** The empty list with [wait_for_completion]: an empty listing ends the
    call at once; a listing in which another job's line holds the name does
    not. *)
Lemma submit_job_list_empty_witness :
  let quiet := world_of [] true in
  let busy := world_of [["  <JB_name>rebatch_7</JB_name>" +:+ LF]] true in
  matching_at quiet default_SubmitSGE "batch" initial 0 = 0
  /\ 0 < matching_at busy default_SubmitSGE "batch" initial 0
  /\ sleepable busy (queue_update default_SubmitSGE) = true
  /\ (exists s', submit_job_list quiet default_SubmitSGE 1 [] "batch" true initial = (Ret tt, s')
        /\ did [EPopen (qstat_xml_command quiet default_SubmitSGE)] initial s')
  /\ (exists s1, did [EPopen (qstat_xml_command busy default_SubmitSGE);
                      ESleep (queue_update default_SubmitSGE)] initial s1
        /\ submit_job_list busy default_SubmitSGE 1 [] "batch" true initial
           = drain_loop busy default_SubmitSGE 0 "batch" s1).
Proof.
  cbv zeta.
  assert (Hq : matching_at (world_of [] true) default_SubmitSGE "batch" initial 0 = 0)
    by (vm_compute; reflexivity).
  assert (Hb : 0 < matching_at (world_of [["  <JB_name>rebatch_7</JB_name>" +:+ LF]] true)
                     default_SubmitSGE "batch" initial 0)
    by (vm_compute; reflexivity).
  assert (Hs : sleepable (world_of [["  <JB_name>rebatch_7</JB_name>" +:+ LF]] true)
                 (queue_update default_SubmitSGE) = true)
    by (vm_compute; reflexivity).
  split; [exact Hq |]. split; [exact Hb |]. split; [exact Hs |]. split.
  - destruct (submit_job_list_empty (world_of [] true) default_SubmitSGE 0 "batch" initial)
      as (_ & _ & Hzero & _).
    exact (Hzero Hq).
  - destruct (submit_job_list_empty
                (world_of [["  <JB_name>rebatch_7</JB_name>" +:+ LF]] true)
                default_SubmitSGE 0 "batch" initial)
      as (_ & _ & _ & Hpos & _).
    exact (Hpos Hb Hs).
Defined.
(** ** get_jobs_in_queue_name *)

Lemma get_jobs_in_queue_name_count (w : world) (self : SubmitSGE)
    (name_fragment : string) (s : state) :
  fst (get_jobs_in_queue_name w self name_fragment s)
  = Ret (Z.of_nat (length (List.filter (found name_fragment)
                             (w_popen w (popens s) (qstat_xml_command w self))))).
Proof.
  rewrite get_jobs_in_queue_name_run. cbn [fst]. unfold matching_at.
  now rewrite count_fragment_acc, Nat.add_0_r.
Qed.

(** C6: [get_jobs_in_queue_name] counts the lines of the listing in which
    the fragment is found, and the fragment is found in a line exactly when it
    occurs somewhere in it, with any text before and after: a substring
    match, not an equality test. *)
Theorem get_jobs_in_queue_name_substring
    (w : world) (self : SubmitSGE) (name_fragment : string) (s : state) :
  fst (get_jobs_in_queue_name w self name_fragment s)
  = Ret (Z.of_nat (length (List.filter (found name_fragment)
                             (w_popen w (popens s) (qstat_xml_command w self)))))
  /\ (forall line, found name_fragment line = true <-> contains name_fragment line)
  /\ (forall before after, found name_fragment (before +:+ name_fragment +:+ after) = true).
Proof.
  split; [apply get_jobs_in_queue_name_count |]. split.
  - intros line. apply found_contains.
  - intros before after. apply found_contains. now exists before, after.
Qed.

(** The fragment job counts the entry of job_42 and that of myjob_overflow,
    and not that of analysis. *)
Lemma get_jobs_in_queue_name_substring_job :
  let listing := ["  <JB_name>job_42</JB_name>" +:+ LF;
                  "  <JB_name>myjob_overflow</JB_name>" +:+ LF;
                  "  <JB_name>analysis</JB_name>" +:+ LF] in
  fst (get_jobs_in_queue_name (world_of [listing] true) default_SubmitSGE "job" initial)
  = Ret 2
  /\ contains "job" ("  <JB_name>job_42</JB_name>" +:+ LF)
  /\ contains "job" ("  <JB_name>myjob_overflow</JB_name>" +:+ LF)
  /\ ~ contains "job" ("  <JB_name>analysis</JB_name>" +:+ LF).
Proof.
  cbv zeta.
  destruct (get_jobs_in_queue_name_substring
              (world_of [["  <JB_name>job_42</JB_name>" +:+ LF;
                          "  <JB_name>myjob_overflow</JB_name>" +:+ LF;
                          "  <JB_name>analysis</JB_name>" +:+ LF]] true)
              default_SubmitSGE "job" initial) as (Hcount & Hiff & _).
  split; [rewrite Hcount; reflexivity |].
  split; [apply Hiff; reflexivity |].
  split; [apply Hiff; reflexivity |].
  intros H. apply Hiff in H. discriminate H.
Defined.

(** C10: [get_jobs_in_queue_name] returns the number of lines of the raw
    listing in which the fragment is found, whatever the lines are.  In the
    listing [qstat -xml] prints for the single job job_42 the fragment job is
    found in eight lines, markup included, while one job has a name that
    holds it; with no job at all it is still found in four. *)
Theorem get_jobs_in_queue_name_counts_lines :
  (forall (w : world) (self : SubmitSGE) (name_fragment : string) (s : state),
     fst (get_jobs_in_queue_name w self name_fragment s)
     = Ret (Z.of_nat (length (List.filter (found name_fragment)
                                (w_popen w (popens s) (qstat_xml_command w self))))))
  /\ (let jobs := [("4242", "job_42")] in
      fst (get_jobs_in_queue_name (world_of [xml_listing jobs] true) default_SubmitSGE
             "job" initial) = Ret 8
      /\ length (List.filter (fun job => found "job" (snd job)) jobs) = 1%nat)
  /\ fst (get_jobs_in_queue_name (world_of [xml_listing []] true) default_SubmitSGE
            "job" initial) = Ret 4.
Proof.
  split; [exact get_jobs_in_queue_name_count |]. vm_compute. repeat split.
Qed.

(** * Further properties of the code *)

(** ** The count of [get_jobs_in_queue_name] *)

Lemma filter_length_le {A} (f g : A -> bool) (l : list A) :
  (forall x, f x = true -> g x = true) ->
  (length (List.filter f l) <= length (List.filter g l))%nat.
Proof.
  intros Himp. induction l as [|x l IH]; [reflexivity |].
  cbn [List.filter]. destruct (f x) eqn:Ef.
  - rewrite (Himp x Ef). cbn [length]. lia.
  - destruct (g x); cbn [length]; lia.
Qed.

Lemma contains_trans (a b c : string) :
  contains a b -> contains b c -> contains a c.
Proof.
  intros (p & q & ->) (p' & q' & ->).
  exists (p' +:+ p), (q +:+ q'). now rewrite !append_assoc.
Qed.

Lemma found_empty (line : string) : found EmptyString line = true.
Proof. apply found_contains. now exists EmptyString, line. Qed.

(** X1: the count returned by [get_jobs_in_queue_name] lies between zero and
    the number of lines read, it is the number of lines read when the
    fragment is the empty string (found in every line, the empty one
    included), and the count of two listings put end to end is the sum of
    their counts. *)
Theorem count_fragment_bounds (name_fragment : string) (lines more : list string) :
  0 <= count_fragment name_fragment lines 0 <= Z.of_nat (length lines)
  /\ count_fragment EmptyString lines 0 = Z.of_nat (length lines)
  /\ count_fragment name_fragment (lines ++ more) 0
     = count_fragment name_fragment lines 0 + count_fragment name_fragment more 0.
Proof.
  rewrite !count_fragment_acc. split; [| split].
  - pose proof (filter_length_le (found name_fragment) (fun _ => true) lines
                  (fun _ _ => eq_refl)) as H.
    assert (Hall : List.filter (fun _ : string => true) lines = lines).
    { clear H. induction lines as [|l lines IH]; [reflexivity |].
      cbn [List.filter]. now rewrite IH. }
    rewrite Hall in H. lia.
  - assert (Hall : List.filter (found EmptyString) lines = lines).
    { induction lines as [|l lines IH]; [reflexivity |].
      cbn [List.filter]. now rewrite found_empty, IH. }
    rewrite Hall. lia.
  - rewrite List.filter_app, length_app. lia.
Qed.

(** X2: a fragment that occurs in another never counts fewer lines than
    that other: shortening the job name handed to [get_jobs_in_queue_name]
    can only make the count grow. *)
Theorem count_fragment_antitone (shorter longer : string) (lines : list string) :
  contains shorter longer ->
  count_fragment longer lines 0 <= count_fragment shorter lines 0.
Proof.
  intros Hsub. rewrite !count_fragment_acc.
  pose proof (filter_length_le (found longer) (found shorter) lines) as H.
  assert (Hle : (length (List.filter (found longer) lines)
                 <= length (List.filter (found shorter) lines))%nat).
  { apply H. intros line Hl. apply found_contains. apply found_contains in Hl.
    now apply contains_trans with longer. }
  lia.
Qed.

Lemma count_fragment_antitone_witness :
  contains "job" "job_42"
  /\ count_fragment "job_42" ["job_42" +:+ LF; "myjob_overflow" +:+ LF] 0
     <= count_fragment "job" ["job_42" +:+ LF; "myjob_overflow" +:+ LF] 0.
Proof.
  assert (H : contains "job" "job_42") by (apply found_contains; reflexivity).
  split; [exact H |].
  exact (count_fragment_antitone "job" "job_42"
           ["job_42" +:+ LF; "myjob_overflow" +:+ LF] H).
Defined.

(** ** The environment name *)

(** X3: the environment name [submit_job] takes from [CONDA_PREFIX] at line
    120 is the text after the last slash: the prefix is the directories, each
    with its slash, followed by the name, and the name holds no slash.  The
    index [-1] is always in range: no [IndexError]. *)
Theorem last_component_after_last_slash (conda : string) (s : state) :
  exists dirs name,
    last_component (Some conda) s = (Ret name, s)
    /\ conda = dirs_text dirs +:+ name
    /\ ~ contains "/" name.
Proof.
  destruct (split_dirs_name conda) as (dirs & name & Hsplit & Hname & Hs).
  exists dirs, name. unfold last_component. rewrite Hsplit, last_snoc.
  repeat split; assumption.
Qed.

(** ** The throttle *)


(** The polls and the submissions of one [submit_job_when_ready]. *)
Lemma submit_job_when_ready_polls (w : world) (self : SubmitSGE) (fuel : nat)
    (command job_name : string) (s : state) :
  let r := submit_job_when_ready w self fuel command job_name s in
  exists n m,
    popen_cmds (trace (snd r)) = (popen_cmds (trace s) ++ replicate n (qstat_command w self))%list
    /\ length (submissions (trace (snd r))) = (length (submissions (trace s)) + m)%nat
    /\ (2 * m <= n)%nat /\ (m <= 1)%nat
    /\ (fst r = Ret tt -> m = 1%nat).
Proof.
  cbv zeta.
  destruct (submit_job_when_ready_effect w self command job_name fuel s)
    as (n & C & _ & [(J & Hne) | (J & _ & Hn)]).
  - exists n, 0%nat. rewrite C, J. repeat split; [lia | lia | lia | congruence].
  - exists n, 1%nat. rewrite C, J, length_app. cbn [length]. repeat split; lia.
Qed.

(** X5: the queries [submit_job_list] makes while it submits are all the
    plain listing of [get_jobs_in_queue], and every job submitted has cost at
    least two of them.  Without [wait_for_completion] these are all the
    queries of the call: the listing of [get_jobs_in_queue_name] is never
    asked for. *)
Theorem submit_job_list_polls
    (w : world) (self : SubmitSGE) (fuel : nat) (command_list : list string)
    (job_name : string) (s : state) :
  let s' := snd (submit_job_list w self fuel command_list job_name false s) in
  exists n m,
    popen_cmds (trace s') = (popen_cmds (trace s) ++ replicate n (qstat_command w self))%list
    /\ length (submissions (trace s')) = (length (submissions (trace s)) + m)%nat
    /\ (2 * m <= n)%nat
    /\ (m <= length command_list)%nat.
Proof.
  cbv zeta. rewrite submit_job_list_phases.
  assert (H : exists n m,
    popen_cmds (trace (snd (submit_each w self fuel command_list job_name s)))
    = (popen_cmds (trace s) ++ replicate n (qstat_command w self))%list
    /\ length (submissions (trace (snd (submit_each w self fuel command_list job_name s))))
       = (length (submissions (trace s)) + m)%nat
    /\ (2 * m <= n)%nat /\ (m <= length command_list)%nat).
  { revert s. induction command_list as [|c rest IH]; intros s.
    - exists 0%nat, 0%nat. cbn [submit_each]. unfold ret. cbn [snd replicate length].
      rewrite app_nil_r. repeat split; lia.
    - rewrite submit_each_cons.
      destruct (submit_job_when_ready_polls w self fuel c job_name s)
        as (n & m & C & J & Hnm & Hm & _).
      destruct (submit_job_when_ready w self fuel c job_name s) as [[[]|e|] s1] eqn:E;
        cbn [fst snd] in *.
      + destruct (IH s1) as (n' & m' & C' & J' & Hnm' & Hm').
        exists (n + n')%nat, (m + m')%nat. rewrite C', C, J', J, replicate_add, app_assoc.
        cbn [length]. repeat split; lia.
      + exists n, m. cbn [length]. repeat split; [exact C | exact J | lia | lia].
      + exists n, m. cbn [length]. repeat split; [exact C | exact J | lia | lia]. }
  destruct (submit_each w self fuel command_list job_name s) as [[[]|e|] s1]; exact H.
Qed.

(** ** [submit_job] and an incomplete environment *)

Section Script.
Context (w : world).

(** X6: when [LD_LIBRARY_PATH], [PATH] or [PYTHONPATH] is not set,
    [submit_job] does not get to [qsub]: nothing is submitted, slept or
    removed.  If the script can be opened the run ends with a [TypeError]
    ([str + None]); if it cannot, with the exception of [open]. *)
Theorem submit_job_missing_variable
    (self : SubmitSGE) (command job_name : string) (s : state) :
  w_environ w !! "LD_LIBRARY_PATH" = None
  \/ w_environ w !! "PATH" = None
  \/ w_environ w !! "PYTHONPATH" = None ->
  exists s',
    submit_job w self command job_name s
    = (Raise (default TypeError (w_open w (opens s) (script_name job_name))), s')
    /\ trace s' = trace s /\ opens s' = S (opens s)
    /\ calls s' = calls s /\ removes s' = removes s.
Proof.
  intros Hmiss.
  destruct (w_open w (opens s) (script_name job_name)) as [e0|] eqn:Ho.
  { rewrite (submit_job_not_opened w self command job_name e0 s Ho).
    eexists. split; [reflexivity |]. repeat split. }
  assert (Hh : script_header w = None).
  { unfold script_header. destruct Hmiss as [H | [H | H]]; rewrite H;
      repeat (destruct (w_environ w !! _)); reflexivity. }
  destruct (submit_job_early w Hh) as (e & c & He & E).
  destruct He as [[-> _] | (_ & H1 & H2 & H3 & _)].
  - eexists. split; [apply E, Ho |]. repeat split.
  - exfalso. destruct Hmiss as [H | [H | H]]; rewrite H in *;
      eapply is_Some_None; eassumption.
Qed.

(** X7: when the three path variables are set and [CONDA_PREFIX] is not,
    [submit_job] does not get to [qsub] either.  If the script can be opened
    the run ends with an [AttributeError]: [None is not ""] holds, so line
    120 calls [split] on [None]; if it cannot, with the exception of
    [open]. *)
Theorem submit_job_without_conda
    (self : SubmitSGE) (command job_name : string) (s : state) :
  is_Some (w_environ w !! "LD_LIBRARY_PATH") ->
  is_Some (w_environ w !! "PATH") ->
  is_Some (w_environ w !! "PYTHONPATH") ->
  w_environ w !! "CONDA_PREFIX" = None ->
  exists s',
    submit_job w self command job_name s
    = (Raise (default AttributeError (w_open w (opens s) (script_name job_name))), s')
    /\ trace s' = trace s /\ opens s' = S (opens s)
    /\ calls s' = calls s /\ removes s' = removes s.
Proof.
  intros [l Hl] [p Hp] [y Hy] Hc.
  destruct (w_open w (opens s) (script_name job_name)) as [e0|] eqn:Ho.
  { rewrite (submit_job_not_opened w self command job_name e0 s Ho).
    eexists. split; [reflexivity |]. repeat split. }
  assert (Hh : script_header w = None).
  { unfold script_header. now rewrite Hl, Hp, Hy, Hc. }
  destruct (submit_job_early w Hh) as (e & c & He & E).
  destruct He as [[_ Hnot] | (-> & _)].
  - exfalso. apply Hnot. rewrite Hl, Hp, Hy. eauto.
  - eexists. split; [apply E, Ho |]. repeat split.
Qed.

End Script.

Lemma submit_job_missing_variable_witness :
  let w := World "alice" (delete "PYTHONPATH" environ_example) (fun _ _ => [])
             (fun _ _ => true) (fun _ _ => None) (fun _ _ => None) 9223372036%Q in
  let locked := World "alice" (delete "PYTHONPATH" environ_example) (fun _ _ => [])
                  (fun _ _ => true) (fun _ _ => Some OSError) (fun _ _ => None)
                  9223372036%Q in
  (w_environ w !! "LD_LIBRARY_PATH" = None
   \/ w_environ w !! "PATH" = None
   \/ w_environ w !! "PYTHONPATH" = None)
  /\ (exists s',
        submit_job w default_SubmitSGE "run" "job" initial = (Raise TypeError, s')
        /\ trace s' = trace initial /\ opens s' = S (opens initial)
        /\ calls s' = calls initial /\ removes s' = removes initial)
  /\ (exists s',
        submit_job locked default_SubmitSGE "run" "a/b" initial = (Raise OSError, s')
        /\ trace s' = trace initial /\ opens s' = S (opens initial)
        /\ calls s' = calls initial /\ removes s' = removes initial).
Proof.
  cbv zeta.
  set (w := World "alice" (delete "PYTHONPATH" environ_example) (fun _ _ => [])
              (fun _ _ => true) (fun _ _ => None) (fun _ _ => None) 9223372036%Q).
  set (locked := World "alice" (delete "PYTHONPATH" environ_example) (fun _ _ => [])
                   (fun _ _ => true) (fun _ _ => Some OSError) (fun _ _ => None)
                   9223372036%Q).
  assert (H : w_environ w !! "LD_LIBRARY_PATH" = None
              \/ w_environ w !! "PATH" = None
              \/ w_environ w !! "PYTHONPATH" = None)
    by (right; right; reflexivity).
  split; [exact H |]. split.
  - exact (submit_job_missing_variable w default_SubmitSGE "run" "job" initial H).
  - exact (submit_job_missing_variable locked default_SubmitSGE "run" "a/b" initial H).
Defined.

Lemma submit_job_without_conda_witness :
  let w := World "alice" (delete "CONDA_PREFIX" environ_example) (fun _ _ => [])
             (fun _ _ => true) (fun _ _ => None) (fun _ _ => None) 9223372036%Q in
  is_Some (w_environ w !! "LD_LIBRARY_PATH")
  /\ is_Some (w_environ w !! "PATH")
  /\ is_Some (w_environ w !! "PYTHONPATH")
  /\ w_environ w !! "CONDA_PREFIX" = None
  /\ exists s',
       submit_job w default_SubmitSGE "run" "job" initial = (Raise AttributeError, s')
       /\ trace s' = trace initial /\ opens s' = S (opens initial)
       /\ calls s' = calls initial /\ removes s' = removes initial.
Proof.
  cbv zeta.
  set (w := World "alice" (delete "CONDA_PREFIX" environ_example) (fun _ _ => [])
              (fun _ _ => true) (fun _ _ => None) (fun _ _ => None) 9223372036%Q).
  assert (H1 : is_Some (w_environ w !! "LD_LIBRARY_PATH")) by (eexists; reflexivity).
  assert (H2 : is_Some (w_environ w !! "PATH")) by (eexists; reflexivity).
  assert (H3 : is_Some (w_environ w !! "PYTHONPATH")) by (eexists; reflexivity).
  assert (H4 : w_environ w !! "CONDA_PREFIX" = None) by reflexivity.
  split; [exact H1 |]. split; [exact H2 |]. split; [exact H3 |]. split; [exact H4 |].
  exact (submit_job_without_conda w default_SubmitSGE "run" "job" initial H1 H2 H3 H4).
Defined.

(** ** What is printed *)

Section Printing.
Context (w : world) (self : SubmitSGE).
Hypothesis quiet : verbose self = false.

Lemma printed_advance (n : nat) (evs : list event) (s : state) :
  printed evs = [] -> printed (trace (advance n evs s)) = printed (trace s).
Proof.
  intros H. unfold advance. cbn [trace]. now rewrite printed_app, H, app_nil_r.
Qed.

Lemma if_verbose_quiet (args : list pyval) : if_verbose self args = [].
Proof. unfold if_verbose. now rewrite quiet. Qed.

Lemma submit_job_printed (command job_name : string) (s : state) :
  printed (trace (snd (submit_job w self command job_name s))) = printed (trace s).
Proof.
  destruct (submit_job_effect w self command job_name s) as (evs & T & _ & P & _).
  now rewrite T, printed_app, P, app_nil_r.
Qed.

Lemma admission_loop_quiet (command job_name : string) (fuel : nat) :
  forall s : state,
    printed (trace (snd (admission_loop w self fuel command job_name s)))
    = printed (trace s).
Proof.
  induction fuel as [|fuel IH]; intros s; [reflexivity |].
  rewrite admission_loop_step.
  destruct (total_at w self s 0 <? maximum_jobs self).
  - rewrite submit_job_printed, if_verbose_quiet. now apply printed_advance.
  - destruct (sleepable w (queue_update self)).
    + rewrite IH. now apply printed_advance.
    + cbn [snd]. now apply printed_advance.
Qed.

Lemma submit_job_when_ready_quiet (command job_name : string) (fuel : nat) (s : state) :
  printed (trace (snd (submit_job_when_ready w self fuel command job_name s)))
  = printed (trace s).
Proof.
  rewrite submit_job_when_ready_start, admission_loop_quiet.
  unfold first_poll. rewrite if_verbose_quiet. now apply printed_advance.
Qed.

Lemma drain_loop_quiet (job_name : string) (fuel : nat) :
  forall s : state,
    printed (trace (snd (drain_loop w self fuel job_name s))) = printed (trace s).
Proof.
  induction fuel as [|fuel IH]; intros s; [reflexivity |].
  rewrite drain_loop_step. cbv zeta. rewrite if_verbose_quiet.
  destruct (0 <? matching_at w self job_name s 0).
  - destruct (sleepable w (queue_update self)).
    + rewrite IH. now apply printed_advance.
    + cbn [snd]. now apply printed_advance.
  - cbn [snd]. now apply printed_advance.
Qed.

Lemma submit_each_quiet (job_name : string) (fuel : nat) (command_list : list string) :
  forall s : state,
    printed (trace (snd (submit_each w self fuel command_list job_name s)))
    = printed (trace s).
Proof.
  induction command_list as [|c rest IH]; intros s; [reflexivity |].
  rewrite submit_each_cons.
  pose proof (submit_job_when_ready_quiet c job_name fuel s) as H.
  destruct (submit_job_when_ready w self fuel c job_name s) as [[[]|e|] s1];
    cbn [snd] in *; [now rewrite IH | exact H | exact H].
Qed.

(** X9: with [verbose] off nothing is ever printed: not by the two queue
    queries, not while waiting for room, submitting or draining, and not when
    the call ends with an exception. *)
Theorem submit_job_list_quiet
    (fuel : nat) (command_list : list string) (job_name name_fragment : string)
    (wait_for_completion : bool) (s : state) :
  printed (trace (snd (submit_job_list w self fuel command_list job_name
                         wait_for_completion s))) = printed (trace s)
  /\ printed (trace (snd (get_jobs_in_queue w self s))) = printed (trace s)
  /\ printed (trace (snd (get_jobs_in_queue_name w self name_fragment s)))
     = printed (trace s).
Proof.
  split; [| split].
  - rewrite submit_job_list_phases.
    pose proof (submit_each_quiet job_name fuel command_list s) as H.
    destruct (submit_each w self fuel command_list job_name s) as [[[]|e|] s1];
      cbn [snd] in *; [| exact H | exact H].
    destruct wait_for_completion; [| exact H]. now rewrite drain_loop_quiet.
  - rewrite get_jobs_in_queue_advance. now apply printed_advance.
  - rewrite get_jobs_in_queue_name_advance. cbn [snd]. rewrite if_verbose_quiet.
    now apply printed_advance.
Qed.

End Printing.

Lemma submit_job_list_quiet_witness :
  let self := {| queue_name := EmptyString; extra_options := EmptyString;
                 maximum_jobs := 100; queue_update := 60%Q; verbose := false |} in
  let w := world_of [[]; []; ["batch" +:+ LF]; []] true in
  verbose self = false
  /\ printed (trace (snd (submit_job_list w self 3 ["cmd1"] "batch" true initial)))
     = printed (trace initial)
  /\ printed (trace (snd (get_jobs_in_queue w self initial))) = printed (trace initial)
  /\ printed (trace (snd (get_jobs_in_queue_name w self "batch" initial)))
     = printed (trace initial).
Proof.
  cbv zeta. split; [reflexivity |].
  exact (submit_job_list_quiet (world_of [[]; []; ["batch" +:+ LF]; []] true)
           {| queue_name := EmptyString; extra_options := EmptyString;
              maximum_jobs := 100; queue_update := 60%Q; verbose := false |}
           eq_refl 3 ["cmd1"] "batch" "batch" true initial).
Defined.

(** ** A batch that fails *)

(** X10: an exception stops the batch where it happens.  If the first
    command is admitted, its script written and handed to [qsub], and the
    script then cannot be removed, [submit_job_list] ends with the [OSError]:
    [qsub] has been called for the first command, for none of the commands
    after it, and no drain is made. *)
Theorem submit_job_list_stops_at_failure
    (w : world) (self : SubmitSGE) (fuel k : nat) (command : string) (rest : list string)
    (job_name h : string) (wait_for_completion : bool) (s : state) :
  script_header w = Some h ->
  w_open w (opens s) (script_name job_name) = None ->
  w_call w (calls s) ["qsub"; extra_options self; "-notify"; "-N"; job_name;
                      script_name job_name] = None ->
  sleepable w 1%Q = true ->
  w_remove_ok w (removes s) (script_name job_name) = false ->
  (k < fuel)%nat ->
  (forall i, (i < k)%nat -> maximum_jobs self <= total_at w self s (S i)) ->
  total_at w self s (S k) < maximum_jobs self ->
  k = 0%nat \/ sleepable w (queue_update self) = true ->
  exists s',
    submit_job_list w self fuel (command :: rest) job_name wait_for_completion s
    = (Raise OSError, s')
    /\ submissions (trace s')
       = (submissions (trace s) ++ [(job_name, Some (h +:+ command))])%list
    /\ popen_cmds (trace s')
       = (popen_cmds (trace s) ++ replicate (k + 2) (qstat_command w self))%list.
Proof.
  intros Hh Ho Hc Hs Hrm Hk Hfull Hroom Hsleep.
  destruct (submit_job_when_ready_submits w self command job_name h s k fuel
              Hfull Hroom Hk Hsleep Hh Ho Hc Hs) as (s' & E & J & C & _).
  rewrite Hrm in E.
  exists s'. rewrite submit_job_list_cons, E. repeat split; assumption.
Qed.

Lemma submit_job_list_stops_at_failure_witness :
  let w := world_of [] false in
  exists h,
    script_header w = Some h
    /\ w_open w (opens initial) (script_name "batch") = None
    /\ w_call w (calls initial) ["qsub"; extra_options default_SubmitSGE; "-notify"; "-N";
                                 "batch"; script_name "batch"] = None
    /\ sleepable w 1%Q = true
    /\ w_remove_ok w (removes initial) (script_name "batch") = false
    /\ exists s',
         submit_job_list w default_SubmitSGE 1 ["cmd1"; "cmd2"; "cmd3"] "batch" true initial
         = (Raise OSError, s')
         /\ submissions (trace s')
            = (submissions (trace initial) ++ [("batch", Some (h +:+ "cmd1"))])%list
         /\ popen_cmds (trace s')
            = (popen_cmds (trace initial)
               ++ replicate (0 + 2) (qstat_command w default_SubmitSGE))%list.
Proof.
  cbv zeta.
  destruct (script_header (world_of [] false)) as [h|] eqn:Hh; [| discriminate Hh].
  exists h. split; [reflexivity |]. split; [reflexivity |]. split; [reflexivity |].
  split; [reflexivity |]. split; [reflexivity |].
  apply (submit_job_list_stops_at_failure (world_of [] false) default_SubmitSGE 1 0
           "cmd1" ["cmd2"; "cmd3"] "batch" h true initial Hh eq_refl eq_refl eq_refl eq_refl).
  - lia.
  - intros i Hi. lia.
  - reflexivity.
  - now left.
Defined.
(** ** The command line of [get_jobs_in_queue_name] *)

Lemma append_empty (a : string) : a +:+ EmptyString = a.
Proof.
  induction a as [|x a IH]; [reflexivity |].
  rewrite append_cons. now rewrite IH.
Qed.

Lemma rev_app_rev_app (word acc rest : string) :
  String.rev_app (String.rev_app word acc) rest = String.rev_app acc (word +:+ rest).
Proof.
  revert acc rest. induction word as [|a word IH]; intros acc rest; [reflexivity |].
  cbn [String.rev_app]. rewrite IH. reflexivity.
Qed.

(** Reading on through a word that holds no white space. *)
Lemma words_go_word (word : string) :
  forall (c rest : string),
    no_blank word = true ->
    String.words_go (Some c) (word +:+ rest)
    = String.words_go (Some (String.rev_app word c)) rest.
Proof.
  induction word as [|a word IH]; intros c rest Hw; [reflexivity |].
  cbn [no_blank] in Hw. apply andb_true_iff in Hw. destruct Hw as [Ha Hw].
  apply negb_true_iff in Ha.
  rewrite append_cons. cbn [String.words_go]. rewrite Ha.
  cbn [from_option]. now rewrite IH.
Qed.

(** A word that holds no white space, then a blank. *)
Lemma words_go_word_blank (a : ascii) (word rest : string) :
  no_blank (String a word) = true ->
  String.words_go None (String a word +:+ String " " rest)
  = String a word :: String.words_go None rest.
Proof.
  intros Hw. cbn [no_blank] in Hw. apply andb_true_iff in Hw. destruct Hw as [Ha Hw].
  apply negb_true_iff in Ha.
  rewrite append_cons. cbn [String.words_go]. rewrite Ha. cbn [from_option].
  rewrite words_go_word by exact Hw. cbn [String.words_go Ascii.is_space].
  cbn [fmap option_fmap option_map option_list app]. unfold String.rev.
  rewrite rev_app_rev_app. cbn [String.rev_app]. now rewrite append_empty.
Qed.

(** A word that holds no white space, at the end of the line. *)
Lemma words_go_word_end (a : ascii) (word : string) :
  no_blank (String a word) = true ->
  String.words_go None (String a word) = [String a word].
Proof.
  intros Hw. cbn [no_blank] in Hw. apply andb_true_iff in Hw. destruct Hw as [Ha Hw].
  apply negb_true_iff in Ha.
  cbn [String.words_go]. rewrite Ha. cbn [from_option].
  rewrite <- (append_empty word) at 1. rewrite words_go_word by exact Hw.
  cbn [String.words_go fmap option_fmap option_map option_list]. unfold String.rev.
  rewrite rev_app_rev_app. cbn [String.rev_app]. now rewrite append_empty.
Qed.

(** X11: for a user name and a queue name without white space, the command
    line [get_jobs_in_queue_name] hands to the shell splits into [qstat],
    [-u] with the user, [-xml], and [-q] with the queue: the query is that of
    the user and of the queue.  With no queue name it ends at [-xml]. *)
Theorem qstat_xml_command_words (w : world) (self : SubmitSGE) (a b : ascii)
    (user queue : string) :
  w_user w = String a user -> no_blank (String a user) = true ->
  (queue_name self = String b queue -> no_blank (String b queue) = true ->
   String.words (qstat_xml_command w self)
   = ["qstat"; "-u"; String a user; "-xml"; "-q"; String b queue])
  /\ (queue_name self = EmptyString ->
      String.words (qstat_xml_command w self) = ["qstat"; "-u"; String a user; "-xml"]).
Proof.
  intros Hu Hub. unfold qstat_xml_command, String.words. rewrite Hu. split.
  - intros Hq Hqb. rewrite Hq. cbn [is_not_empty].
    assert (E : ("qstat -u " +:+ String a user +:+ " -xml ") +:+ "-q " +:+ String b queue
                = "qstat" +:+ String " " ("-u" +:+ String " "
                    (String a user +:+ String " " ("-xml" +:+ String " "
                       ("-q" +:+ String " " (String b queue))))))
      by (rewrite !append_assoc; reflexivity).
    rewrite E.
    rewrite (words_go_word_blank "q" "stat") by reflexivity.
    rewrite (words_go_word_blank "-" "u") by reflexivity.
    rewrite (words_go_word_blank a user) by exact Hub.
    rewrite (words_go_word_blank "-" "xml") by reflexivity.
    rewrite (words_go_word_blank "-" "q") by reflexivity.
    now rewrite (words_go_word_end b queue) by exact Hqb.
  - intros Hq. rewrite Hq. cbn [is_not_empty].
    assert (E : "qstat -u " +:+ String a user +:+ " -xml "
                = "qstat" +:+ String " " ("-u" +:+ String " "
                    (String a user +:+ String " " ("-xml" +:+ String " " EmptyString))))
      by reflexivity.
    rewrite E.
    rewrite (words_go_word_blank "q" "stat") by reflexivity.
    rewrite (words_go_word_blank "-" "u") by reflexivity.
    rewrite (words_go_word_blank a user) by exact Hub.
    rewrite (words_go_word_blank "-" "xml") by reflexivity.
    reflexivity.
Qed.

Lemma qstat_xml_command_words_witness :
  let w := world_of [] true in
  let self := with_queue_name "long" default_SubmitSGE in
  w_user w = String "a" "lice"
  /\ no_blank (String "a" "lice") = true
  /\ queue_name self = String "l" "ong"
  /\ no_blank (String "l" "ong") = true
  /\ String.words (qstat_xml_command w self)
     = ["qstat"; "-u"; String "a" "lice"; "-xml"; "-q"; String "l" "ong"].
Proof.
  cbv zeta.
  destruct (qstat_xml_command_words (world_of [] true)
              (with_queue_name "long" default_SubmitSGE) "a" "l" "lice" "ong"
              eq_refl eq_refl) as [Hq _].
  split; [reflexivity |]. split; [reflexivity |]. split; [reflexivity |].
  split; [reflexivity |]. exact (Hq eq_refl eq_refl).
Defined.

(** ** The drain loop on its own *)


(** ** Verbosity *)

Section Verbosity.
Context (w : world) (self : SubmitSGE) (b : bool).

Abbreviation self' := (with_verbose b self).

Lemma same_but_prints_refl (s : state) : same_but_prints s s.
Proof. repeat split. Qed.

Lemma same_but_prints_advance (n : nat) (evs evs' : list event) (s s' : state) :
  same_but_prints s s' -> unprinted evs = unprinted evs' ->
  same_but_prints (advance n evs s) (advance n evs' s').
Proof.
  intros (P & O & C & R & F & T) E. unfold same_but_prints, advance.
  cbn [popens opens calls removes files trace]. rewrite !unprinted_app, P, O, C, R, F, T, E.
  repeat split.
Qed.

Lemma total_at_same (s s' : state) (j : nat) :
  same_but_prints s s' -> total_at w self' s' j = total_at w self s j.
Proof. intros (P & _). unfold total_at. now rewrite P. Qed.

Lemma matching_at_same (job_name : string) (s s' : state) (j : nat) :
  same_but_prints s s' ->
  matching_at w self' job_name s' j = matching_at w self job_name s j.
Proof. intros (P & _). unfold matching_at. now rewrite P. Qed.

Lemma submit_job_same (command job_name : string) (s s' : state) :
  same_but_prints s s' ->
  agree (submit_job w self command job_name s) (submit_job w self' command job_name s').
Proof.
  destruct s as [p o c r fs tr], s' as [p' o' c' r' fs' tr'].
  intros (P & O & C & R & F & T). cbn [popens opens calls removes files trace] in *.
  subst p' o' c' r' fs'.
  destruct (submit_job_frame w self command job_name o c r fs)
    as (res & o1 & c1 & r1 & fs1 & evs & E & _).
  rewrite (E self p tr eq_refl), (E self' p tr' eq_refl).
  split; [reflexivity |]. unfold same_but_prints.
  cbn [fst snd popens opens calls removes files trace].
  rewrite !unprinted_app, T. repeat split.
Qed.

Lemma admission_loop_same (command job_name : string) (fuel : nat) :
  forall s s' : state,
    same_but_prints s s' ->
    agree (admission_loop w self fuel command job_name s)
          (admission_loop w self' fuel command job_name s').
Proof.
  induction fuel as [|fuel IH]; intros s s' Hs.
  - split; [reflexivity | exact Hs].
  - rewrite !admission_loop_step, (total_at_same s s' 0 Hs).
    change (maximum_jobs self') with (maximum_jobs self).
    change (queue_update self') with (queue_update self).
    change (qstat_command w self') with (qstat_command w self).
    destruct (total_at w self s 0 <? maximum_jobs self).
    + apply submit_job_same. apply same_but_prints_advance; [exact Hs |].
      cbn [unprinted List.filter].
      fold (unprinted (if_verbose self [PStr "Submitting Job"; PStr job_name])).
      fold (unprinted (if_verbose self' [PStr "Submitting Job"; PStr job_name])).
      now rewrite !unprinted_if_verbose.
    + destruct (sleepable w (queue_update self)).
      * apply IH. now apply same_but_prints_advance.
      * split; [reflexivity |]. cbn [snd]. now apply same_but_prints_advance.
Qed.

Lemma submit_job_when_ready_same (command job_name : string) (fuel : nat) (s s' : state) :
  same_but_prints s s' ->
  agree (submit_job_when_ready w self fuel command job_name s)
        (submit_job_when_ready w self' fuel command job_name s').
Proof.
  intros Hs. rewrite !submit_job_when_ready_start.
  apply admission_loop_same. unfold first_poll.
  change (qstat_command w self') with (qstat_command w self).
  apply same_but_prints_advance; [exact Hs |].
  cbn [unprinted List.filter].
  repeat match goal with
         | |- context [List.filter ?f (if_verbose ?o ?a)] =>
             change (List.filter f (if_verbose o a)) with (unprinted (if_verbose o a));
             rewrite unprinted_if_verbose
         end.
  reflexivity.
Qed.

Lemma drain_loop_same (job_name : string) (fuel : nat) :
  forall s s' : state,
    same_but_prints s s' ->
    agree (drain_loop w self fuel job_name s) (drain_loop w self' fuel job_name s').
Proof.
  induction fuel as [|fuel IH]; intros s s' Hs.
  - split; [reflexivity | exact Hs].
  - rewrite !drain_loop_step. cbv zeta. rewrite (matching_at_same job_name s s' 0 Hs).
    change (queue_update self') with (queue_update self).
    change (qstat_xml_command w self') with (qstat_xml_command w self).
    assert (Hev : forall tail,
      unprinted ((EPopen (qstat_xml_command w self)
                    :: if_verbose self [PInt (matching_at w self job_name s 0);
                                        PStr "Jobs containing string";
                                        PStr job_name; PStr "in queue"]) ++ tail)
      = unprinted ((EPopen (qstat_xml_command w self)
                      :: if_verbose self' [PInt (matching_at w self job_name s 0);
                                           PStr "Jobs containing string";
                                           PStr job_name; PStr "in queue"]) ++ tail)).
    { intros tail. rewrite !unprinted_app. f_equal. cbn [unprinted List.filter].
      repeat match goal with
             | |- context [List.filter ?f (if_verbose ?o ?a)] =>
                 change (List.filter f (if_verbose o a)) with (unprinted (if_verbose o a));
                 rewrite unprinted_if_verbose
             end.
      reflexivity. }
    assert (Hev0 := Hev []). rewrite !app_nil_r in Hev0.
    destruct (0 <? matching_at w self job_name s 0).
    + destruct (sleepable w (queue_update self)).
      * apply IH. apply same_but_prints_advance; [exact Hs | apply Hev].
      * split; [reflexivity |]. cbn [snd]. now apply same_but_prints_advance.
    + split; [reflexivity |]. cbn [snd]. now apply same_but_prints_advance.
Qed.

Lemma submit_each_same (job_name : string) (fuel : nat) (command_list : list string) :
  forall s s' : state,
    same_but_prints s s' ->
    agree (submit_each w self fuel command_list job_name s)
          (submit_each w self' fuel command_list job_name s').
Proof.
  induction command_list as [|c rest IH]; intros s s' Hs.
  - split; [reflexivity | exact Hs].
  - rewrite !submit_each_cons.
    destruct (submit_job_when_ready_same c job_name fuel s s' Hs) as [Hf Hsame].
    destruct (submit_job_when_ready w self fuel c job_name s) as [[[]|e|] s1];
      destruct (submit_job_when_ready w self' fuel c job_name s') as [[[]|e'|] s1'];
      cbn [fst snd] in *; try discriminate.
    + now apply IH.
    + split; [exact Hf | exact Hsame].
    + split; [reflexivity | exact Hsame].
Qed.

(** X13: the verbosity changes what is printed and nothing else.  Run with
    any other setting of [verbose], [submit_job_list] has the same outcome,
    makes the same queries, submissions, sleeps and removals in the same
    order, and leaves the same files. *)
Theorem verbose_only_prints
    (fuel : nat) (command_list : list string) (job_name : string)
    (wait_for_completion : bool) (s : state) :
  let r := submit_job_list w self fuel command_list job_name wait_for_completion s in
  let r' := submit_job_list w self' fuel command_list job_name wait_for_completion s in
  fst r = fst r'
  /\ popens (snd r) = popens (snd r') /\ removes (snd r) = removes (snd r')
  /\ files (snd r) = files (snd r')
  /\ unprinted (trace (snd r)) = unprinted (trace (snd r')).
Proof.
  cbv zeta. rewrite !submit_job_list_phases.
  destruct (submit_each_same job_name fuel command_list s s (same_but_prints_refl s))
    as [Hf Hsame].
  destruct (submit_each w self fuel command_list job_name s) as [[[]|e|] s1];
    destruct (submit_each w self' fuel command_list job_name s) as [[[]|e'|] s1'];
    cbn [fst snd] in *; try discriminate.
  - destruct wait_for_completion.
    + destruct (drain_loop_same job_name fuel s1 s1' Hsame) as [Hd (P & _ & _ & R & F & T)].
      repeat split; assumption.
    + destruct Hsame as (P & _ & _ & R & F & T). repeat split; assumption.
  - destruct Hsame as (P & _ & _ & R & F & T). repeat split; assumption.
  - destruct Hsame as (P & _ & _ & R & F & T). repeat split; assumption.
Qed.

End Verbosity.
